(** * NodeSeek sign-in plugin and CloudFlare bypass helper: a shallow embedding

    Sources:
      - plugins/nodeseeksign/__init__.py   (class nodeseeksign)
      - plugins/sitehelper/cf_bypass_helper.py (class CloudFlareBypassHelper)

    Python values that come from the network or from the host's key-value
    store are untyped, so they are modelled by a small JSON-like value type
    with Python's truthiness, [dict.get], [in] and [==].  Calls that leave the
    repository (HTTP adapters, the host scheduler, the persistence service,
    the notification sink, the wall clock, [datetime] parsing) are parameters
    of the definitions: an environment record gives the outcome of each call,
    an exception being one of the outcomes. *)

From Stdlib Require Import Ascii String ZArith QArith Lia.
From stdpp Require Import gmap strings list fin_maps pretty.

Set Warnings "-register-all".

Open Scope string_scope.
Open Scope list_scope.
Open Scope Z_scope.

(** ** Python strings

    A [str] is modelled by its UTF-8 encoding.  Substring search and equality
    on the encodings agree with the same operations on code points; slicing
    counts code points, so [take_chars] skips continuation bytes. *)

Module Py.

Fixpoint str_in (needle hay : string) : bool :=
  String.prefix needle hay ||
  match hay with
  | EmptyString => false
  | String _ rest => str_in needle rest
  end.

(** [any(k in text for k in ks)] *)
Definition any_in (ks : list string) (text : string) : bool :=
  existsb (fun k => str_in k text) ks.

Definition lower_ascii (c : ascii) : ascii :=
  let n := nat_of_ascii c in
  if (Nat.leb 65 n && Nat.leb n 90)%bool then ascii_of_nat (n + 32) else c.

(** [s.lower()]; the strings lowered here are HTTP header values. *)
Fixpoint lower (s : string) : string :=
  match s with
  | EmptyString => EmptyString
  | String c rest => String (lower_ascii c) (lower rest)
  end.

Definition is_continuation (c : ascii) : bool :=
  let n := nat_of_ascii c in (Nat.leb 128 n && Nat.ltb n 192)%bool.

Fixpoint skip_continuation (s : string) : string * string :=
  match s with
  | String c rest =>
      if is_continuation c
      then let '(k, r) := skip_continuation rest in (String c k, r)
      else (EmptyString, s)
  | EmptyString => (EmptyString, EmptyString)
  end.

(** [s[:n]] *)
Fixpoint take_chars (n : nat) (s : string) {struct n} : string :=
  match n, s with
  | O, _ => EmptyString
  | _, EmptyString => EmptyString
  | S m, String c rest =>
      let '(k, r) := skip_continuation rest in
      String c (k +:+ take_chars m r)
  end.

(** [s.replace('Z', '+00:00')] *)
Fixpoint replace_Z (s : string) : string :=
  match s with
  | EmptyString => EmptyString
  | String c rest =>
      if Ascii.eqb c "Z"%char then "+00:00" +:+ replace_Z rest
      else String c (replace_Z rest)
  end.

(** [str(n)] for an [int] *)
Definition str_of_int (n : Z) : string := pretty n.

(** *** JSON-like values *)

Inductive json : Type :=
| JNull
| JBool (b : bool)
| JNum (q : Q)
| JStr (s : string)
| JArr (l : list json)
| JObj (kvs : list (string * json)).

Definition truthy (v : json) : bool :=
  match v with
  | JNull => false
  | JBool b => b
  | JNum q => negb (Qeq_bool q 0)
  | JStr s => negb (String.eqb s "")
  | JArr l => match l with [] => false | _ => true end
  | JObj kvs => match kvs with [] => false | _ => true end
  end.

Fixpoint assoc (k : string) (kvs : list (string * json)) : option json :=
  match kvs with
  | [] => None
  | (k', v) :: rest => if String.eqb k k' then Some v else assoc k rest
  end.

(** [d.get(k, dflt)]: [None] models the [AttributeError] raised when [d]
    is not a dict. *)
Definition get_default (d : json) (k : string) (dflt : json) : option json :=
  match d with
  | JObj kvs => Some (default dflt (assoc k kvs))
  | _ => None
  end.

(** [d.get(k)] *)
Definition get (d : json) (k : string) : option json := get_default d k JNull.

(** [k in d] for a dict [d] *)
Definition has_key (k : string) (kvs : list (string * json)) : bool :=
  match assoc k kvs with Some _ => true | None => false end.

Definition is_str (s : string) (v : json) : bool :=
  match v with JStr s' => String.eqb s s' | _ => false end.

(** [needle in v] for a string needle: substring search on a [str],
    membership on a list, key membership on a dict, [TypeError] ([None])
    on anything else. *)
Definition contains (needle : string) (v : json) : option bool :=
  match v with
  | JStr s => Some (str_in needle s)
  | JArr l => Some (existsb (is_str needle) l)
  | JObj kvs => Some (has_key needle kvs)
  | JNull | JBool _ | JNum _ => None
  end.

(** [v == n] for an integer literal [n] *)
Definition eq_int (v : json) (n : Z) : bool :=
  match v with
  | JNum q => Qeq_bool q (inject_Z n)
  | JBool b => Z.eqb (if b then 1 else 0) n
  | _ => false
  end.

(** [a or b] *)
Definition or_else (a b : json) : json := if truthy a then a else b.

End Py.

(** ** Proxy normalisation

    [nodeseeksign._normalize_proxies] and
    [CloudFlareBypassHelper._normalize_proxies].  The raw configuration is
    whatever [settings.PROXY] holds; Python's [None] is [JNull]. *)

Module Proxies.
Import Py.

(** [d.get(k)] on a value already known to be a dict *)
Definition dict_get (d : json) (k : string) : json :=
  match d with
  | JObj kvs => default JNull (assoc k kvs)
  | _ => JNull
  end.

(** [{"http": h, "https": s}] *)
Definition proxy_dict (h s : json) : json := JObj [("http", h); ("https", s)].

(** plugins/nodeseeksign/__init__.py, [_normalize_proxies]: the body runs
    under [try ... except Exception] and falls through to [return None]. *)
Definition _normalize_proxies (proxies_input : json) : json :=
  if negb (truthy proxies_input) then JNull
  else match proxies_input with
       | JStr s => proxy_dict (JStr s) (JStr s)
       | JObj _ =>
           let http_url :=
             or_else (dict_get proxies_input "http")
               (or_else (dict_get proxies_input "HTTP")
                  (or_else (dict_get proxies_input "https")
                     (dict_get proxies_input "HTTPS"))) in
           let https_url :=
             or_else (dict_get proxies_input "https")
               (or_else (dict_get proxies_input "HTTPS")
                  (or_else (dict_get proxies_input "http")
                     (dict_get proxies_input "HTTP"))) in
           if (negb (truthy http_url) && negb (truthy https_url))%bool
           then JNull
           else proxy_dict (or_else http_url https_url)
                           (or_else https_url http_url)
       | _ => JNull
       end.

(** plugins/sitehelper/cf_bypass_helper.py, the static method of the same
    name: the same tests, without the enclosing [try]. *)
Definition helper_normalize_proxies (proxies_input : json) : json :=
  if negb (truthy proxies_input) then JNull
  else if match proxies_input with JStr _ => true | _ => false end
  then proxy_dict proxies_input proxies_input
  else if match proxies_input with JObj _ => true | _ => false end
  then
    let http_url :=
      or_else (dict_get proxies_input "http")
        (or_else (dict_get proxies_input "HTTP")
           (or_else (dict_get proxies_input "https")
              (dict_get proxies_input "HTTPS"))) in
    let https_url :=
      or_else (dict_get proxies_input "https")
        (or_else (dict_get proxies_input "HTTPS")
           (or_else (dict_get proxies_input "http")
              (dict_get proxies_input "HTTP"))) in
    if (negb (truthy http_url) && negb (truthy https_url))%bool
    then JNull
    else proxy_dict (or_else http_url https_url) (or_else https_url http_url)
  else JNull.

(** First truthy value of a list, which is what a chain of [or] picks when
    there is one. *)
Fixpoint first_truthy (l : list json) : option json :=
  match l with
  | [] => None
  | x :: rest => if truthy x then Some x else first_truthy rest
  end.

(** The entries the normaliser reads, in the order of preference for the
    [http] and for the [https] slot. *)
Definition http_first (v : json) : list json :=
  [dict_get v "http"; dict_get v "HTTP"; dict_get v "https"; dict_get v "HTTPS"].
Definition https_first (v : json) : list json :=
  [dict_get v "https"; dict_get v "HTTPS"; dict_get v "http"; dict_get v "HTTP"].

(** A usable URL value: a non-empty string. *)
Definition is_url (v : json) : bool :=
  match v with JStr s => negb (String.eqb s "") | _ => false end.

(** The values of a mapping are URLs or empty ([None], [""]). *)
Definition url_valued (v : json) : Prop :=
  match v with
  | JObj kvs => Forall (fun kv => is_url kv.2 = true \/ truthy kv.2 = false) kvs
  | _ => True
  end.

End Proxies.

(** ** Dates and times

    A [datetime] is the number of microseconds its calendar fields lie after
    1970-01-01T00:00:00 on its own wall clock, with the UTC offset it carries
    ([None] for a naive value).  [datetime.fromisoformat], [strptime] and
    [strftime] belong to Python's library: they are fields of [pylib], so
    every statement below holds for whatever they compute. *)

Module Time.

Definition US_PER_SECOND : Z := 1000000.
Definition US_PER_HOUR : Z := 3600 * US_PER_SECOND.
Definition US_PER_DAY : Z := 24 * US_PER_HOUR.

Record datetime : Type := mk_datetime {
  wall : Z;
  utcoffset : option Z
}.

(** [d.date()], as a day number *)
Definition date_of (d : datetime) : Z := wall d / US_PER_DAY.

(** [d.replace(tzinfo=None)]: the fields stay, the offset goes. *)
Definition replace_tzinfo_none (d : datetime) : datetime :=
  {| wall := wall d; utcoffset := None |}.

(** [(a - b).days] for two naive values: timedelta normalises with a floor. *)
Definition delta_days (a b : Z) : Z := (a - b) / US_PER_DAY.

Record pylib : Type := mk_pylib {
  (** [datetime.fromisoformat(s)]; [None] is [ValueError] *)
  fromisoformat : string -> option datetime;
  (** [datetime.strptime(s, '%Y-%m-%d %H:%M:%S')], a naive value *)
  strptime : string -> option Z;
  (** [d.strftime('%Y-%m-%d %H:%M:%S')] *)
  strftime : Z -> string;
  (** [d.strftime('%Y-%m-%d')] *)
  strftime_date : Z -> string;
  (** UTC offset of the process's local time zone, which [astimezone]
      assumes for a naive value *)
  local_offset : Z;
  (** [json.loads(s)]; [None] is [JSONDecodeError] *)
  json_loads : string -> option Py.json
}.

(** The point in time a value denotes, in microseconds UTC. *)
Definition instant (L : pylib) (d : datetime) : Z :=
  wall d - default (local_offset L) (utcoffset d).

(** [pytz.timezone('Asia/Shanghai')]: UTC+8, without daylight saving for
    every date after 1991. *)
Definition SHANGHAI : Z := 8 * US_PER_HOUR.

(** [d.astimezone(tz)] for a zone of fixed offset *)
Definition astimezone (L : pylib) (off : Z) (d : datetime) : datetime :=
  {| wall := instant L d + off; utcoffset := Some off |}.

(** *** A reference library for the canonical formats

    Fixed-width, zero-padded [YYYY-MM-DD HH:MM:SS], optionally with [T] as
    separator and a [+HH:MM] or [-HH:MM] offset: what [strftime] prints and
    what the site's API sends after [Z] has been replaced (with a fraction
    of a second of three or six digits). *)

Definition digit (c : ascii) : option Z :=
  let n := nat_of_ascii c in
  if (Nat.leb 48 n && Nat.leb n 57)%bool then Some (Z.of_nat (n - 48)) else None.

Fixpoint digits (n : nat) (acc : Z) (s : string) : option (Z * string) :=
  match n with
  | O => Some (acc, s)
  | S m =>
      match s with
      | String c rest =>
          match digit c with
          | Some d => digits m (10 * acc + d) rest
          | None => None
          end
      | EmptyString => None
      end
  end.

Definition expect (c : ascii) (s : string) : option string :=
  match s with
  | String c' rest => if Ascii.eqb c c' then Some rest else None
  | EmptyString => None
  end.

Definition is_leap (y : Z) : bool :=
  ((y mod 4 =? 0) && (negb (y mod 100 =? 0) || (y mod 400 =? 0)))%bool.

Definition days_in_month (y m : Z) : Z :=
  if m =? 2 then (if is_leap y then 29 else 28)
  else if (m =? 4) || (m =? 6) || (m =? 9) || (m =? 11) then 30 else 31.

(** Days from 1970-01-01 to the civil date [y-m-d]. *)
Definition days_from_civil (y m d : Z) : Z :=
  let y' := if m <=? 2 then y - 1 else y in
  let era := y' / 400 in
  let yoe := y' - era * 400 in
  let mp := (m + 9) mod 12 in
  let doy := (153 * mp + 2) / 5 + d - 1 in
  let doe := yoe * 365 + yoe / 4 - yoe / 100 + doy in
  era * 146097 + doe - 719468.

Definition civil_from_days (z0 : Z) : Z * Z * Z :=
  let z := z0 + 719468 in
  let era := z / 146097 in
  let doe := z - era * 146097 in
  let yoe := (doe - doe / 1460 + doe / 36524 - doe / 146096) / 365 in
  let doy := doe - (365 * yoe + yoe / 4 - yoe / 100) in
  let mp := (5 * doy + 2) / 153 in
  let d := doy - (153 * mp + 2) / 5 + 1 in
  let m := if mp <? 10 then mp + 3 else mp - 9 in
  let y := yoe + era * 400 + (if m <=? 2 then 1 else 0) in
  (y, m, d).

Definition parse_fields (sep : list ascii) (s : string) : option (Z * string) :=
  '(y, s) ← digits 4 0 s;
  s ← expect "-" s;
  '(m, s) ← digits 2 0 s;
  s ← expect "-" s;
  '(d, s) ← digits 2 0 s;
  s ← match s with
      | String c rest => if existsb (Ascii.eqb c) sep then Some rest else None
      | EmptyString => None
      end;
  '(hh, s) ← digits 2 0 s;
  s ← expect ":" s;
  '(mm, s) ← digits 2 0 s;
  s ← expect ":" s;
  '(ss, s) ← digits 2 0 s;
  if ((1 <=? m) && (m <=? 12) && (1 <=? d) && (d <=? days_in_month y m)
      && (hh <? 24) && (mm <? 60) && (ss <? 60))%bool
  then Some (days_from_civil y m d * US_PER_DAY
             + ((hh * 60 + mm) * 60 + ss) * US_PER_SECOND, s)
  else None.

Definition parse_offset (s : string) : option (option Z) :=
  match s with
  | EmptyString => Some None
  | String c rest =>
      sign ← (if Ascii.eqb c "+" then Some 1
              else if Ascii.eqb c "-" then Some (-1) else None);
      '(hh, s) ← digits 2 0 rest;
      s ← expect ":" s;
      '(mm, s) ← digits 2 0 s;
      match s with
      | EmptyString =>
          if ((hh <? 24) && (mm <? 60))%bool
          then Some (Some (sign * (hh * 60 + mm) * 60 * US_PER_SECOND))
          else None
      | _ => None
      end
  end.

(** An optional fraction of a second, of three or six digits. *)
Definition parse_fraction (s : string) : Z * string :=
  match s with
  | String "."%char rest =>
      match digits 6 0 rest with
      | Some (us, s') => (us, s')
      | None =>
          match digits 3 0 rest with
          | Some (ms, s') => (ms * 1000, s')
          | None => (0, s)
          end
      end
  | _ => (0, s)
  end.

Definition ref_fromisoformat (s : string) : option datetime :=
  '(w, s) ← parse_fields ["T"; " "]%char s;
  let '(us, s) := parse_fraction s in
  off ← parse_offset s;
  Some {| wall := w + us; utcoffset := off |}.

Definition ref_strptime (s : string) : option Z :=
  '(w, s) ← parse_fields [" "]%char s;
  match s with EmptyString => Some w | _ => None end.

Definition pad (n : nat) (v : Z) : string :=
  let s := pretty v in
  String.concat "" (replicate (n - String.length s) "0") +:+ s.

Definition ref_strftime_date (w : Z) : string :=
  let '(y, m, d) := civil_from_days (w / US_PER_DAY) in
  pad 4 y +:+ "-" +:+ pad 2 m +:+ "-" +:+ pad 2 d.

Definition ref_strftime (w : Z) : string :=
  let t := (w mod US_PER_DAY) / US_PER_SECOND in
  ref_strftime_date w +:+ " " +:+ pad 2 (t / 3600) +:+ ":"
    +:+ pad 2 ((t / 60) mod 60) +:+ ":" +:+ pad 2 (t mod 60).

(** [json.loads] of the reference library rejects everything: the examples
    below never need a successful second parse. *)
Definition ref_pylib (local_off : Z) : pylib :=
  {| fromisoformat := ref_fromisoformat;
     strptime := ref_strptime;
     strftime := ref_strftime;
     strftime_date := ref_strftime_date;
     local_offset := local_off;
     json_loads := fun _ => None |}.

End Time.


(** ** The transport adapter chain

    An HTTP call leaves the repository: [network] gives the outcome of the
    [n]-th call an invocation of the chain makes, from the adapter used and
    the proxies in force for it.  The chain returns its outcome together with
    the calls it made, in order. *)

Module Transport.
Import Py Proxies.

Record response : Type := mk_response {
  status_code : Z;
  (** the [Content-Type] header; header names are matched without regard to
      case by the three client libraries *)
  content_type : option string;
  content_encoding : option string;
  (** [resp.json()]; [None] when it raises *)
  json_body : option json;
  text : string
}.

Inductive outcome : Type :=
| Returned (r : response)
| Raised (e : string).

Inductive adapter : Type := Cloudscraper | CurlCffi | Requests.

Record call : Type := mk_call {
  via : adapter;
  (** the proxies the call goes through: the session's [proxies] attribute,
      or the [proxies=] argument of [requests] *)
  with_proxies : json;
  (** whether [verify=True] is passed *)
  verify : bool
}.

Definition network : Type := nat -> call -> outcome.

(** [resp.headers.get('Content-Type') or resp.headers.get('content-type') or ''] *)
Definition ct_of (r : response) : string := default "" (content_type r).

(** [resp.status_code in (400, 403) or 'text/html' in ct.lower()] *)
Definition blocked (r : response) : bool :=
  ((status_code r =? 400) || (status_code r =? 403)
   || str_in "text/html" (lower (ct_of r)))%bool.

(** The part of the plugin instance the chain reads and writes.  The
    cloudscraper session is kept by its [proxies] attribute. *)
Record client : Type := mk_client {
  HAS_CLOUDSCRAPER : bool;
  HAS_CURL_CFFI : bool;
  _scraper : option json;
  _verify_ssl : bool
}.

Definition set_scraper (c : client) (p : json) : client :=
  {| HAS_CLOUDSCRAPER := HAS_CLOUDSCRAPER c;
     HAS_CURL_CFFI := HAS_CURL_CFFI c;
     _scraper := Some p;
     _verify_ssl := _verify_ssl c |}.

(** [self._normalize_proxies(proxies) or {}] *)
Definition session_proxies (proxies : json) : json :=
  or_else (_normalize_proxies proxies) (JObj []).

(** First stage of [_smart_post] and [_smart_get]: cloudscraper.  [None]
    means that the chain goes on. *)
Definition via_cloudscraper (c : client) (net : network) (proxies : json)
  : option response * list call * client :=
  match HAS_CLOUDSCRAPER c, _scraper c with
  | true, Some sp =>
      let sp' := if truthy proxies then session_proxies proxies else sp in
      let c' := set_scraper c sp' in
      let k := mk_call Cloudscraper sp' (_verify_ssl c) in
      match net 0%nat k with
      | Returned resp =>
          if blocked resp then (None, [k], c') else (Some resp, [k], c')
      | Raised _ => (None, [k], c')
      end
  | _, _ => (None, [], c)
  end.

(** Second stage: a fresh curl_cffi session.  The second request is sent on
    the same session object, whose [proxies] attribute is the one set before
    the first request. *)
Definition via_curl_cffi (c : client) (net : network) (proxies : json) (n : nat)
  : option response * list call :=
  if HAS_CURL_CFFI c then
    let session := if truthy proxies then session_proxies proxies else JObj [] in
    let k := mk_call CurlCffi session (_verify_ssl c) in
    match net n k with
    | Returned resp =>
        if blocked resp then
          if truthy proxies then
            match net (S n) k with
            | Returned resp2 =>
                if (negb ((status_code resp2 =? 400) || (status_code resp2 =? 403))
                    && negb (str_in "text/html" (lower (ct_of resp2))))%bool
                then (Some resp2, [k; k])
                else (None, [k; k])
            | Raised _ => (None, [k; k])
            end
          else (None, [k])
        else (Some resp, [k])
    | Raised _ => (None, [k])
    end
  else (None, []).

(** Third stage of [_smart_post]: plain [requests], which raises on a
    response that looks blocked. *)
Definition via_requests_post (c : client) (net : network) (proxies : json) (n : nat)
  : outcome * list call :=
  let norm := _normalize_proxies proxies in
  let k := mk_call Requests norm (_verify_ssl c) in
  match net n k with
  | Returned resp =>
      if blocked resp then (Raised "requests non-JSON/non-200", [k])
      else (Returned resp, [k])
  | Raised e => (Raised e, [k])
  end.

(** Third stage of [_smart_get]: plain [requests], whose response is
    returned as it comes. *)
Definition via_requests_get (c : client) (net : network) (proxies : json) (n : nat)
  : outcome * list call :=
  let norm := _normalize_proxies proxies in
  let k := mk_call Requests norm (_verify_ssl c) in
  (net n k, [k]).

(** plugins/nodeseeksign/__init__.py, [_smart_post] *)
Definition _smart_post (c : client) (net : network) (proxies : json)
  : outcome * list call * client :=
  let '(r1, t1, c1) := via_cloudscraper c net proxies in
  match r1 with
  | Some resp => (Returned resp, t1, c1)
  | None =>
      let '(r2, t2) := via_curl_cffi c1 net proxies (length t1) in
      match r2 with
      | Some resp => (Returned resp, t1 ++ t2, c1)
      | None =>
          let '(r3, t3) := via_requests_post c1 net proxies (length (t1 ++ t2)) in
          (r3, t1 ++ t2 ++ t3, c1)
      end
  end.

(** plugins/nodeseeksign/__init__.py, [_smart_get] *)
Definition _smart_get (c : client) (net : network) (proxies : json)
  : outcome * list call * client :=
  let '(r1, t1, c1) := via_cloudscraper c net proxies in
  match r1 with
  | Some resp => (Returned resp, t1, c1)
  | None =>
      let '(r2, t2) := via_curl_cffi c1 net proxies (length t1) in
      match r2 with
      | Some resp => (Returned resp, t1 ++ t2, c1)
      | None =>
          let '(r3, t3) := via_requests_get c1 net proxies (length (t1 ++ t2)) in
          (r3, t1 ++ t2 ++ t3, c1)
      end
  end.

(** *** plugins/sitehelper/cf_bypass_helper.py *)

Record bypass_helper : Type := mk_helper {
  helper_has_cloudscraper : bool;
  helper_has_curl_cffi : bool;
  (** [self.proxies], normalised by [__init__] *)
  proxies : json;
  verify_ssl : bool;
  (** [self._scraper], by its [proxies] attribute *)
  helper_scraper : option json
}.

(** [CloudFlareBypassHelper.__init__]; [scraper_ok] tells whether
    [cloudscraper.create_scraper] returned. *)
Definition helper_init (has_cs has_curl scraper_ok : bool)
    (proxies_arg : json) (verify : bool) : bypass_helper :=
  let p := helper_normalize_proxies proxies_arg in
  {| helper_has_cloudscraper := has_cs;
     helper_has_curl_cffi := has_curl;
     proxies := p;
     verify_ssl := verify;
     helper_scraper :=
       if (has_cs && scraper_ok)%bool
       then Some (if truthy p then p else JObj [])
       else None |}.

(** [CloudFlareBypassHelper.smart_get] *)
Definition smart_get (h : bypass_helper) (net : network) : outcome * list call :=
  let '(r1, t1) :=
    match helper_has_cloudscraper h, helper_scraper h with
    | true, Some sp =>
        let k := mk_call Cloudscraper sp (verify_ssl h) in
        match net 0%nat k with
        | Returned resp => if blocked resp then (None, [k]) else (Some resp, [k])
        | Raised _ => (None, [k])
        end
    | _, _ => (None, [])
    end in
  match r1 with
  | Some resp => (Returned resp, t1)
  | None =>
      let '(r2, t2) :=
        if helper_has_curl_cffi h then
          let k := mk_call CurlCffi
                     (if truthy (proxies h) then proxies h else JObj [])
                     (verify_ssl h) in
          match net (length t1) k with
          | Returned resp =>
              if (negb ((status_code resp =? 400) || (status_code resp =? 403))
                  && negb (str_in "text/html" (lower (ct_of resp))))%bool
              then (Some resp, [k]) else (None, [k])
          | Raised _ => (None, [k])
          end
        else (None, []) in
      match r2 with
      | Some resp => (Returned resp, t1 ++ t2)
      | None =>
          let k := mk_call Requests (proxies h) (verify_ssl h) in
          (net (length (t1 ++ t2)) k, t1 ++ t2 ++ [k])
      end
  end.

(** The adapters a chain may use, in their fixed order; curl_cffi may be
    used twice in a row. *)
Definition rank (a : adapter) : nat :=
  match a with Cloudscraper => 0 | CurlCffi => 1 | Requests => 2 end.

Fixpoint in_order (l : list adapter) : bool :=
  match l with
  | a :: ((b :: _) as rest) => (Nat.leb (rank a) (rank b) && in_order rest)%bool
  | _ => true
  end.

(** A call whose outcome lets the chain go on. *)
Definition rejected (o : outcome) : bool :=
  match o with Returned r => blocked r | Raised _ => true end.

(** The adapters an instance can use, in the order the chain tries them:
    cloudscraper under [HAS_CLOUDSCRAPER and self._scraper], curl_cffi under
    [HAS_CURL_CFFI], plain [requests] always. *)
Definition available (c : client) : list adapter :=
  (if HAS_CLOUDSCRAPER c then
     match _scraper c with Some _ => [Cloudscraper] | None => [] end
   else [])
  ++ (if HAS_CURL_CFFI c then [CurlCffi] else [])
  ++ [Requests].

Definition helper_available (h : bypass_helper) : list adapter :=
  (if helper_has_cloudscraper h then
     match helper_scraper h with Some _ => [Cloudscraper] | None => [] end
   else [])
  ++ (if helper_has_curl_cffi h then [CurlCffi] else [])
  ++ [Requests].

Definition same_adapter (a b : adapter) : bool := Nat.eqb (rank a) (rank b).

(** The number of calls a trace makes through one adapter. *)
Definition calls_via (a : adapter) (trace : list call) : nat :=
  length (List.filter (fun k => same_adapter a (via k)) trace).

(** The adapters of a trace, a repeated call of one adapter counted once. *)
Fixpoint adapters_tried (l : list adapter) : list adapter :=
  match l with
  | a :: rest =>
      match rest with
      | b :: _ => if same_adapter a b then adapters_tried rest
                  else a :: adapters_tried rest
      | [] => [a]
      end
  | [] => []
  end.

End Transport.

(** ** The sign-in call and its classifier

    plugins/nodeseeksign/__init__.py, [_run_api_sign]. *)

Module ApiSign.
Import Py Proxies Transport.

(** The [result] dict.  A key that is absent reads as falsy through
    [result.get], so the two flags are booleans. *)
Record api_result : Type := mk_result {
  r_success : bool;
  r_signed : bool;
  r_already_signed : bool;
  r_message : json;
  r_gain : option json;
  r_current : option json
}.

(** [{"success": False, "signed": False, "already_signed": False, "message": ""}] *)
Definition result0 : api_result :=
  {| r_success := false; r_signed := false; r_already_signed := false;
     r_message := JStr ""; r_gain := None; r_current := None |}.

(** [result.update({"success": True, "signed": True, "message": msg})] *)
Definition signed_ok (msg : json) : api_result :=
  {| r_success := true; r_signed := true; r_already_signed := false;
     r_message := msg; r_gain := None; r_current := None |}.

(** [result.update({"success": True, "already_signed": True, "message": msg})] *)
Definition already_ok (msg : json) : api_result :=
  {| r_success := true; r_signed := false; r_already_signed := true;
     r_message := msg; r_gain := None; r_current := None |}.

(** [result.update({"message": msg})] *)
Definition failed (msg : json) : api_result :=
  {| r_success := false; r_signed := false; r_already_signed := false;
     r_message := msg; r_gain := None; r_current := None |}.

(** [result.update({"gain": gain, "current": current})] *)
Definition with_gain (r : api_result) (g c : json) : api_result :=
  {| r_success := r_success r; r_signed := r_signed r;
     r_already_signed := r_already_signed r; r_message := r_message r;
     r_gain := Some g; r_current := Some c |}.

(** [x is True] *)
Definition is_True (v : json) : bool :=
  match v with JBool true => true | _ => false end.

Definition COOKIE_INVALID : string := "Cookie已失效，请更新".

(** [f"未知响应: {response.status_code}"] *)
Definition unknown_response (status : Z) : string :=
  "未知响应: " +:+ str_of_int status.

(** The body of the first [try] after [data = response.json()]: [None] is
    an exception, which the [except Exception] that follows turns into the
    text fallback. *)
Definition classify_json (data : json) (status : Z) : option api_result :=
  msg ← get_default data "message" (JStr "");
  flag ← get data "success";
  if is_True flag then
    g ← get_default data "gain" (JNum 0);
    c ← get_default data "current" (JNum 0);
    Some (if truthy g then with_gain (signed_ok msg) g c else signed_ok msg)
  else
    match contains "鸡腿" msg with
    | None => None
    | Some true => Some (signed_ok msg)
    | Some false =>
        match contains "已完成签到" msg with
        | None => None
        | Some true => Some (already_ok msg)
        | Some false =>
            st ← get data "status";
            if (is_str "USER NOT FOUND" msg || eq_int st 404)%bool
            then Some (failed (JStr COOKIE_INVALID))
            else
              a ← contains "签到" msg;
              b ← contains "成功" msg;
              c ← contains "完成" msg;
              Some (if (a && (b || c))%bool then signed_ok msg
                    else failed (or_else msg (JStr (unknown_response status))))
        end
    end.

(** The chain of tests on the raw text, after the warm-up retry. *)
Definition classify_text (text : string) (status : Z) : api_result :=
  if any_in ["鸡腿"; "签到成功"; "签到完成"; "success"] text
  then signed_ok (JStr (take_chars 80 text))
  else if str_in "已完成签到" text
  then already_ok (JStr (take_chars 80 text))
  else if str_in "Cannot GET /api/attendance" text
  then failed (JStr "服务端拒绝GET，需要POST；可能被WAF拦截")
  else if any_in ["登录"; "注册"; "你好啊，陌生人"] text
  then failed (JStr "未登录或Cookie失效，返回登录页")
  else failed (JStr ("非JSON响应(" +:+ str_of_int status +:+ ")")).

(** What the fallback needs from outside. *)
Record fallback_env : Type := mk_fallback_env {
  (** [self.save_data('last_sign_response', ...)] raises, with this text *)
  save_response_fault : option string;
  (** [self._scraper.get('https://www.nodeseek.com/board', timeout=30)] *)
  warm_get : outcome;
  (** [warm.post(url, headers=headers_retry, timeout=30)] *)
  warm_post : outcome
}.

(** [_scraper_warmup_and_attach_user_cookie]: whether it returns the
    scraper (rather than [None]). *)
Definition _scraper_warmup_and_attach_user_cookie
    (c : client) (E : fallback_env) : bool :=
  match HAS_CLOUDSCRAPER c, _scraper c with
  | true, Some _ =>
      match warm_get E with
      | Returned _ => true
      | Raised _ => false
      end
  | _, _ => false
  end.

(** The warm-up retry: [Some r] when it ends in [return result]. *)
Definition warm_retry (c : client) (E : fallback_env) : option api_result :=
  if _scraper_warmup_and_attach_user_cookie c E then
    match warm_post E with
    | Returned resp_retry =>
        if str_in "application/json" (lower (default "" (content_type resp_retry)))
        then
          data ← json_body resp_retry;
          msg ← get_default data "message" (JStr "");
          flag ← get data "success";
          if is_True flag then
            g ← get_default data "gain" (JNum 0);
            c ← get_default data "current" (JNum 0);
            Some (if truthy g then with_gain (signed_ok msg) g c else signed_ok msg)
          else
            match contains "已完成签到" msg with
            | Some true => Some (already_ok msg)
            | _ => None
            end
        else None
    | Raised _ => None
    end
  else None.

(** [f"API签到出错: {str(e)}"], the result of the outermost handler *)
Definition api_error (e : string) : api_result :=
  failed (JStr ("API签到出错: " +:+ e)).

(** The handler of the first [try]. *)
Definition non_json_fallback (c : client) (E : fallback_env) (resp : response)
  : api_result :=
  match save_response_fault E with
  | Some e => api_error e
  | None =>
      match warm_retry c E with
      | Some r => r
      | None => classify_text (text resp) (status_code resp)
      end
  end.

(** From the response to the result. *)
Definition classify (c : client) (E : fallback_env) (resp : response)
  : api_result :=
  match json_body resp ≫= (fun data => classify_json data (status_code resp)) with
  | Some r => r
  | None => non_json_fallback c E resp
  end.

(** [_get_proxies] *)
Definition _get_proxies (use_proxy : bool) (settings_PROXY : json) : json :=
  if negb use_proxy then JNull
  else if truthy settings_PROXY
       then let norm := _normalize_proxies settings_PROXY in
            if truthy norm then norm else JNull
       else JNull.

Definition _run_api_sign (c : client) (net : network) (E : fallback_env)
    (use_proxy : bool) (settings_PROXY : json) : api_result * client :=
  let proxies := _get_proxies use_proxy settings_PROXY in
  let '(o, _, c') := _smart_post c net proxies in
  match o with
  | Returned resp => (classify c' E resp, c')
  | Raised e => (api_error e, c')
  end.

(** The six rules of the decision table.  The message is the value under
    [message], of whatever type; a test [needle in msg] that is not defined
    on it counts as not holding. *)
Inductive rule : Type :=
| SuccessFlag | RewardWord | AlreadyDone | CookieInvalid | SignPhrase | Otherwise.

Definition holds (needle : string) (msg : json) : bool :=
  default false (contains needle msg).

Definition rule_holds (data : json) (msg : json) (r : rule) : bool :=
  match r with
  | SuccessFlag => is_True (default JNull (get data "success"))
  | RewardWord => holds "鸡腿" msg
  | AlreadyDone => holds "已完成签到" msg
  | CookieInvalid =>
      (is_str "USER NOT FOUND" msg
       || eq_int (default JNull (get data "status")) 404)%bool
  | SignPhrase =>
      (holds "签到" msg && (holds "成功" msg || holds "完成" msg))%bool
  | Otherwise => true
  end.

(** The first rule whose condition holds. *)
Definition first_rule (data : json) (msg : json) : rule :=
  default Otherwise
    (List.find (rule_holds data msg)
       [SuccessFlag; RewardWord; AlreadyDone; CookieInvalid; SignPhrase]).

(** The message the classifier works on: [data.get('message', '')], which
    is there when the body is an object. *)
Definition message_of (data : json) : option json :=
  get_default data "message" (JStr "").

(** The values [needle in msg] is defined on: a [str], a list, a dict. *)
Definition searchable (msg : json) : bool :=
  match msg with
  | JStr _ | JArr _ | JObj _ => true
  | JNull | JBool _ | JNum _ => false
  end.

(** The verdict each rule stands for. *)
Definition rule_result (data : json) (msg : json) (status : Z) (r : rule)
  : api_result :=
  match r with
  | SuccessFlag =>
      let g := default (JNum 0) (get_default data "gain" (JNum 0)) in
      let c := default (JNum 0) (get_default data "current" (JNum 0)) in
      if truthy g then with_gain (signed_ok msg) g c
      else signed_ok msg
  | RewardWord | SignPhrase => signed_ok msg
  | AlreadyDone => already_ok msg
  | CookieInvalid => failed (JStr COOKIE_INVALID)
  | Otherwise =>
      failed (if truthy msg then msg else JStr (unknown_response status))
  end.

End ApiSign.

(** ** The history ledger

    plugins/nodeseeksign/__init__.py, [_save_sign_history]. *)

Module History.
Import Py Time.

(** A history record, with the keys the plugin writes.  [date] is the
    value under ["date"], whatever its type, or [None] when the key is
    missing. *)
Record sign_entry : Type := mk_entry {
  date : option json;
  status : string;
  message : option json;
  gain : option json;
  rank : option json;
  total_signers : option json
}.

(** [record["date"] = d] *)
Definition set_date (r : sign_entry) (d : string) : sign_entry :=
  {| date := Some (JStr d); status := status r; message := message r;
     gain := gain r; rank := rank r; total_signers := total_signers r |}.

(** The host's key-value store, for the keys read back by the code
    modelled here, and the keys written so far, in order. *)
Record store : Type := mk_store {
  sign_history : option (list sign_entry);
  last_sign_date : option string;
  last_attendance_record : json;
  writes : list string
}.

Definition empty_store : store :=
  {| sign_history := None; last_sign_date := None;
     last_attendance_record := JNull; writes := [] |}.

(** [self.save_data(key="sign_history", value=v)] *)
Definition save_history (st : store) (v : list sign_entry) : store :=
  {| sign_history := Some v; last_sign_date := last_sign_date st;
     last_attendance_record := last_attendance_record st;
     writes := writes st ++ ["sign_history"] |}.

(** [self.save_data('last_sign_date', v)] *)
Definition save_last_sign_date (st : store) (v : string) : store :=
  {| sign_history := sign_history st; last_sign_date := Some v;
     last_attendance_record := last_attendance_record st;
     writes := writes st ++ ["last_sign_date"] |}.

(** [self.save_data('last_attendance_record', v)] *)
Definition save_attendance (st : store) (v : json) : store :=
  {| sign_history := sign_history st; last_sign_date := last_sign_date st;
     last_attendance_record := v;
     writes := writes st ++ ["last_attendance_record"] |}.

(** A write to a key that is not read back here. *)
Definition save_other (st : store) (key : string) : store :=
  {| sign_history := sign_history st; last_sign_date := last_sign_date st;
     last_attendance_record := last_attendance_record st;
     writes := writes st ++ [key] |}.

(** What one call of [_save_sign_history] takes from outside. *)
Record save_env : Type := mk_save_env {
  (** [self.get_data('sign_history')] raises *)
  get_fault : bool;
  (** [self.save_data(key="sign_history", ...)] raises *)
  save_fault : bool;
  (** [datetime.now()] when the entry has no date *)
  now_default : Z;
  (** [now = datetime.now()] before the loop *)
  now_prune : Z;
  (** [datetime.now()] in the handler, for the record at index [i] *)
  now_repair : nat -> Z
}.

(** [int(self._history_days) if self._history_days is not None else 30] *)
Definition retention (history_days : option Z) : Z := default 30 history_days.

(** What [datetime.strptime(record["date"], '%Y-%m-%d %H:%M:%S')] does. *)
Inductive parse_result : Type :=
| Parsed (d : Z)     (** a naive value *)
| Unreadable         (** [KeyError] (no date) or [ValueError] (a string that
                         does not parse): the loop's handler catches both *)
| WrongType.         (** [TypeError]: the date is there and is not a string *)

Definition record_date (L : pylib) (record : sign_entry) : parse_result :=
  match date record with
  | None => Unreadable
  | Some (JStr s) =>
      match strptime L s with
      | Some d => Parsed d
      | None => Unreadable
      end
  | Some _ => WrongType
  end.

(** The [for i, record in enumerate(history)] loop; [None] when a
    [TypeError] leaves it. *)
Fixpoint prune_loop (L : pylib) (E : save_env) (retention_days : Z)
    (i : nat) (history valid_history : list sign_entry)
  : option (list sign_entry) :=
  match history with
  | [] => Some valid_history
  | record :: rest =>
      match record_date L record with
      | Parsed d =>
          let days_diff := delta_days (now_prune E) d in
          prune_loop L E retention_days (S i) rest
            (if days_diff <? retention_days
             then valid_history ++ [record]
             else valid_history)
      | Unreadable =>
          prune_loop L E retention_days (S i) rest
            (valid_history ++ [set_date record (strftime L (now_repair E i))])
      | WrongType => None
      end
  end.

(** [_save_sign_history(sign_data)].  Returns the store and [sign_data] as
    the caller sees it afterwards: the dict is appended to the list as it
    is, so what the function writes into it stays.  The whole body runs
    under [try ... except Exception], whose handler logs and returns: an
    exception that leaves the loop ends the call before [save_data]. *)
Definition _save_sign_history (L : pylib) (E : save_env)
    (history_days : option Z) (st : store) (sign_data : sign_entry)
  : store * sign_entry :=
  if get_fault E then (st, sign_data)
  else
    let history := default [] (sign_history st) in
    let sign_data1 :=
      match date sign_data with
      | None => set_date sign_data (strftime L (now_default E))
      | Some _ => sign_data
      end in
    let history1 := history ++ [sign_data1] in
    let retention_days := retention history_days in
    match prune_loop L E retention_days 0 history1 [] with
    | None => (st, sign_data1)
    | Some valid_history =>
        let sign_data2 :=
          match record_date L sign_data1 with
          | Unreadable =>
              set_date sign_data1 (strftime L (now_repair E (length history)))
          | _ => sign_data1
          end in
        if save_fault E then (st, sign_data2)
        else (save_history st valid_history, sign_data2)
    end.

(** [clear_sign_history] *)
Definition clear_sign_history (st : store) : store :=
  {| sign_history := Some []; last_sign_date := Some "";
     last_attendance_record := JStr "";
     writes := writes st ++ ["sign_history"; "last_sign_date";
                             "last_user_info"; "last_attendance_record"] |}.

(** What becomes of the record at index [i] when the loop gets past it:
    kept, repaired or dropped. *)
Definition fate (L : pylib) (E : save_env) (retention_days : Z)
    (i : nat) (record : sign_entry) : option sign_entry :=
  match record_date L record with
  | Parsed d =>
      if delta_days (now_prune E) d <? retention_days then Some record else None
  | Unreadable => Some (set_date record (strftime L (now_repair E i)))
  | WrongType => None
  end.

(** The date of a record is there and is not a string. *)
Definition wrong_type (record : sign_entry) : bool :=
  match date record with
  | None | Some (JStr _) => false
  | Some _ => true
  end.

End History.

(** ** The attendance record

    plugins/nodeseeksign/__init__.py, [_fetch_attendance_record]. *)

Module Attendance.
Import Py Proxies Time Transport History.

Record fetch_env : Type := mk_fetch_env {
  (** [brotli.decompress(resp.content).decode('utf-8')]; [None] when the
      import or the decompression fails *)
  brotli : option string;
  (** [datetime.now(sh_tz)], as a point in time *)
  now_instant : Z;
  (** [self.save_data('last_attendance_response', ...)] raises *)
  save_response_fault : bool;
  (** [self.get_data('last_attendance_record')] raises *)
  get_cached_fault : bool;
  (** [self.save_data('last_attendance_record', record)] raises *)
  save_record_fault : bool
}.

(** The text the second parse works on. *)
Definition response_text (E : fetch_env) (resp : response) : string :=
  if String.eqb (lower (default "" (content_encoding resp))) "br"
  then default (text resp) (brotli E)
  else text resp.

(** [d[k] = v] on the items of a dict *)
Fixpoint dict_set (kvs : list (string * json)) (k : string) (v : json)
  : list (string * json) :=
  match kvs with
  | [] => [(k, v)]
  | (k', v') :: rest =>
      if String.eqb k k' then (k, v) :: rest else (k', v') :: dict_set rest k v
  end.

(** The test that guards [return cached]. *)
Definition cached_is_of_today (L : pylib) (E : fetch_env) (cached : json) : bool :=
  (truthy cached &&
   match get cached "created_at" with
   | Some (JStr s) =>
       negb (String.eqb s "") &&
       match fromisoformat L (replace_Z s) with
       | Some d =>
           let rec_dt := astimezone L SHANGHAI d in
           date_of rec_dt =? (now_instant E + SHANGHAI) / US_PER_DAY
       | None => false
       end
   | _ => false
   end)%bool.

(** The handler that runs when neither parse succeeds. *)
Definition unparsed_fallback (L : pylib) (E : fetch_env) (st : store)
  : json * store :=
  if save_response_fault E then (JObj [], st)
  else
    let st1 := save_other st "last_attendance_response" in
    if get_cached_fault E then (JObj [], st1)
    else
      let cached := or_else (last_attendance_record st1) (JObj []) in
      if cached_is_of_today L E cached then (cached, st1) else (JObj [], st1).

(** The code after a successful parse. *)
Definition record_of_data (E : fetch_env) (st : store) (data : json)
  : json * store :=
  match get_default data "record" (JObj []) with
  | None => (JObj [], st)
  | Some record =>
      if truthy record then
        match data, record with
        | JObj dkvs, JObj rkvs =>
            let rkvs' :=
              if has_key "order" dkvs
              then dict_set (dict_set rkvs "rank" (dict_get data "order"))
                            "total_signers" (dict_get data "total")
              else dict_set (dict_set rkvs "rank" JNull) "total_signers" JNull in
            if save_record_fault E then (JObj [], st)
            else (JObj rkvs', save_attendance st (JObj rkvs'))
        | _, _ => (JObj [], st)
        end
      else (record, st)
  end.

Definition _fetch_attendance_record (L : pylib) (E : fetch_env)
    (c : client) (net : network) (use_proxy : bool) (settings_PROXY : json)
    (st : store) : json * store * client :=
  let proxies := ApiSign._get_proxies use_proxy settings_PROXY in
  let '(o, _, c') := _smart_get c net proxies in
  match o with
  | Raised _ => (JObj [], st, c')
  | Returned resp =>
      match json_body resp with
      | Some data => (record_of_data E st data, c')
      | None =>
          match json_loads L (response_text E resp) with
          | Some data => (record_of_data E st data, c')
          | None => (unparsed_fallback L E st, c')
          end
      end
  end.

(** The time stamp of a cached record, moved to Asia/Shanghai. *)
Definition cached_shanghai_date (L : pylib) (cached : json) : option Z :=
  match get cached "created_at" with
  | Some (JStr s) =>
      if String.eqb s "" then None
      else d ← fromisoformat L (replace_Z s);
           Some (date_of (astimezone L SHANGHAI d))
  | _ => None
  end.

End Attendance.

(** ** Statistics

    plugins/nodeseeksign/__init__.py, [_get_signin_stats].  A row of the
    credit ledger is the 4-tuple (amount, balance, description, time stamp)
    of the site's API. *)

Module Stats.
Import Py Time History.

Record row : Type := mk_row {
  amount : Z;
  balance : Z;
  description : string;
  timestamp : string
}.

(** What [self._smart_get] and [resp.json()] give for one page. *)
Inductive page_outcome : Type :=
| PageRaised            (** the request raises *)
| PageNotJson           (** [resp.json()] raises *)
| PageData (success : bool) (data : list row).
                        (** [data.get('success')] as a truth value, [data.get('data')] *)

Record stat_record : Type := mk_stat_record {
  sr_amount : Q;
  sr_date : string;
  sr_description : string
}.

Record stats : Type := mk_stats {
  total_amount : Q;
  average : Q;
  days_count : nat;
  records : list stat_record;
  period : string
}.

Record stats_env : Type := mk_stats_env {
  (** the outcome of the request for page [n] *)
  ledger : nat -> page_outcome;
  (** [datetime.now(tz)], as a point in time *)
  now_shanghai : Z;
  (** [self.get_data('sign_history')] raises *)
  get_history_fault : bool
}.

(** [datetime.fromisoformat(ts.replace('Z', '+00:00')).astimezone(tz)], as
    a point in time: aware values compare by it. *)
Definition row_time (L : pylib) (ts : string) : option Z :=
  d ← fromisoformat L (replace_Z ts); Some (instant L d).

Definition in_window (L : pylib) (start : Z) (r : row) : bool :=
  match row_time L (timestamp r) with
  | Some t => start <=? t
  | None => false
  end.

(** The [while page <= 20] loop; [fuel] is the number of pages left. *)
Fixpoint paginate (L : pylib) (E : stats_env) (start : Z)
    (fuel page : nat) (all_records : list row) : list row :=
  match fuel with
  | O => all_records
  | S fuel' =>
      match ledger E page with
      | PageRaised => all_records
      | PageNotJson => all_records
      | PageData ok rows =>
          if (negb ok || match rows with [] => true | _ => false end)%bool
          then all_records
          else
            match last rows ≫= (fun r => row_time L (timestamp r)) with
            | None => all_records
            | Some last_record_time =>
                if last_record_time <? start
                then all_records ++ filter (fun r => in_window L start r = true) rows
                else paginate L E start fuel' (S page) (all_records ++ rows)
            end
      end
  end.

(** ['签到收益' in description and '鸡腿' in description] *)
Definition is_signin_reward (r : row) : bool :=
  (str_in "签到收益" (description r) && str_in "鸡腿" (description r))%bool.

(** The loop that builds [signin_records]. *)
Fixpoint signin_records_of (L : pylib) (start : Z) (all_records : list row)
  : list stat_record :=
  match all_records with
  | [] => []
  | r :: rest =>
      match row_time L (timestamp r) with
      | None => signin_records_of L start rest
      | Some record_time =>
          if ((start <=? record_time) && is_signin_reward r)%bool
          then {| sr_amount := inject_Z (amount r);
                  sr_date := strftime_date L (record_time + SHANGHAI);
                  sr_description := description r |}
               :: signin_records_of L start rest
          else signin_records_of L start rest
      end
  end.

(** [round(x, 2)] on the exact quotient: to the nearest hundredth, ties to
    the even one.  Python rounds the binary float nearest to the quotient;
    the two agree whenever the quotient is a multiple of a hundredth. *)
Definition round2 (x : Q) : Q :=
  let n := Qnum x * 100 in
  let d := Z.pos (Qden x) in
  let q := n / d in
  let r := n mod d in
  let q' := if 2 * r <? d then q
            else if d <? 2 * r then q + 1
            else if Z.even q then q else q + 1 in
  Qred (q' # 100).

(** [sum(r['amount'] for r in rs)] *)
Definition sum_amounts (rs : list stat_record) : Q :=
  Qred (fold_left (fun acc r => (acc + sr_amount r)%Q) rs 0%Q).

(** [f'近{days}天' if days != 1 else '今天'] *)
Definition period_desc (days : Z) : string :=
  if days =? 1 then "今天" else "近" +:+ str_of_int days +:+ "天".

Definition zero_stats (days : Z) : stats :=
  {| total_amount := 0; average := 0; days_count := 0; records := [];
     period := period_desc days |}.

Definition summarise (days : Z) (rs : list stat_record) : stats :=
  let total := sum_amounts rs in
  let n := length rs in
  {| total_amount := total;
     average := if (0 <? Z.of_nat n) then round2 (total / inject_Z (Z.of_nat n)) else 0;
     days_count := n;
     records := rs;
     period := period_desc days |}.

(** A gain taken from the local history, as a number; [None] when adding
    it up raises [TypeError]. *)
Definition number_of (v : json) : option Q :=
  match v with
  | JNum q => Some q
  | JBool b => Some (if b then 1 else 0)%Q
  | _ => None
  end.

Definition success_statuses : list string :=
  ["签到成功"; "已签到"; "签到成功（时间验证）"; "已签到（从记录确认）"].

(** [rec.get('date', '')] when it is a string; on another value [strptime]
    raises [TypeError], which the loop's [except Exception] skips like a
    [ValueError]. *)
Definition date_text (rec : sign_entry) : option string :=
  match date rec with
  | None => Some ""
  | Some (JStr s) => Some s
  | Some _ => None
  end.

(** The loop over the local history; [None] when the sum would raise. *)
Fixpoint fallback_records_of (L : pylib) (start : Z) (history : list sign_entry)
  : option (list stat_record) :=
  match history with
  | [] => Some []
  | rec :: rest =>
      match date_text rec ≫= strptime L with
      | None => fallback_records_of L start rest
      | Some w =>
          let rec_dt := w - local_offset L in
          if ((start <=? rec_dt)
              && existsb (String.eqb (status rec)) success_statuses
              && truthy (default JNull (gain rec)))%bool
          then
            a ← number_of (default (JNum 0) (gain rec));
            tl ← fallback_records_of L start rest;
            Some ({| sr_amount := a;
                     sr_date := strftime_date L (rec_dt + SHANGHAI);
                     sr_description := "本地历史-签到收益" |} :: tl)
          else fallback_records_of L start rest
      end
  end.

(** [_get_signin_stats(days)]; [None] is the empty dict returned when no
    cookie is configured. *)
Definition _get_signin_stats (L : pylib) (E : stats_env) (cookie : string)
    (st : store) (days : Z) : option stats :=
  if String.eqb cookie "" then None
  else
    let days := if days <=? 0 then 1 else days in
    let query_start_time := now_shanghai E - days * US_PER_DAY in
    let all_records := paginate L E query_start_time 20 1 [] in
    let signin_records := signin_records_of L query_start_time all_records in
    match signin_records with
    | [] =>
        if get_history_fault E then Some (zero_stats days)
        else
          match fallback_records_of L query_start_time
                  (default [] (sign_history st)) with
          | None => Some (zero_stats days)
          | Some [] => Some (zero_stats days)
          | Some fallback_records => Some (summarise days fallback_records)
          end
    | _ => Some (summarise days signin_records)
    end.

(** A ledger served page by page: page [n] holds the [n]-th list of rows,
    and the pages after the last one are empty. *)
Definition serve (pages : list (list row)) (n : nat) : page_outcome :=
  match n with
  | O => PageData true []
  | S k => PageData true (default [] (pages !! k))
  end.

(** The rows of a ledger that count: inside the window, with the
    description of a sign-in reward. *)
Definition counted (L : pylib) (start : Z) (r : row) : bool :=
  (in_window L start r && is_signin_reward r)%bool.

(** Newest first, as the site lists them. *)
Fixpoint newest_first (L : pylib) (rows : list row) : Prop :=
  match rows with
  | [] => True
  | r :: rest =>
      Forall (fun r' => forall t t', row_time L (timestamp r) = Some t ->
                          row_time L (timestamp r') = Some t' -> t' <= t) rest
      /\ newest_first L rest
  end.

End Stats.

(** ** The entry point

    plugins/nodeseeksign/__init__.py, [sign], with the retry scheduling and
    [stop_service].  The host scheduler is APScheduler's
    [BackgroundScheduler], modelled by its job store: [remove_job] raises
    when no job has the id, [add_job] raises when the id is taken, and a job
    with a [date] trigger leaves the store when it fires. *)

Module Sign.
Import Py Time History ApiSign.

Record job : Type := mk_job {
  job_id : string;
  job_name : string;
  run_date : Z
}.

Record scheduler : Type := mk_scheduler {
  running : bool;
  jobs : list job
}.

Definition has_job (id : string) (s : scheduler) : bool :=
  existsb (fun j => String.eqb (job_id j) id) (jobs s).

(** [scheduler.remove_job(id)]; [None] is [JobLookupError] *)
Definition remove_job (id : string) (s : scheduler) : option scheduler :=
  if has_job id s
  then Some {| running := running s;
               jobs := List.filter (fun j => negb (String.eqb (job_id j) id)) (jobs s) |}
  else None.

(** [scheduler.add_job(..., id=id)]; [None] is [ConflictingIdError] *)
Definition add_job (j : job) (s : scheduler) : option scheduler :=
  if has_job (job_id j) s then None
  else Some {| running := running s; jobs := jobs s ++ [j] |}.

(** The plugin instance and the host's store. *)
Record plugin : Type := mk_plugin {
  _cookie : string;
  _notify : bool;
  _history_days : option Z;
  _max_retries : option Z;
  _retry_count : Z;
  _scheduled_retry : option string;
  _scheduler : option scheduler;
  data : store
}.

Definition set_data (p : plugin) (d : store) : plugin :=
  {| _cookie := _cookie p; _notify := _notify p;
     _history_days := _history_days p; _max_retries := _max_retries p;
     _retry_count := _retry_count p; _scheduled_retry := _scheduled_retry p;
     _scheduler := _scheduler p; data := d |}.

Definition set_retry_count (p : plugin) (n : Z) : plugin :=
  {| _cookie := _cookie p; _notify := _notify p;
     _history_days := _history_days p; _max_retries := _max_retries p;
     _retry_count := n; _scheduled_retry := _scheduled_retry p;
     _scheduler := _scheduler p; data := data p |}.

Definition set_scheduled_retry (p : plugin) (id : option string) : plugin :=
  {| _cookie := _cookie p; _notify := _notify p;
     _history_days := _history_days p; _max_retries := _max_retries p;
     _retry_count := _retry_count p; _scheduled_retry := id;
     _scheduler := _scheduler p; data := data p |}.

Definition set_scheduler (p : plugin) (s : option scheduler) : plugin :=
  {| _cookie := _cookie p; _notify := _notify p;
     _history_days := _history_days p; _max_retries := _max_retries p;
     _retry_count := _retry_count p; _scheduled_retry := _scheduled_retry p;
     _scheduler := s; data := data p |}.

(** What one invocation of [sign] takes from outside. *)
Record sign_env : Type := mk_sign_env {
  (** [datetime.now().strftime('%Y-%m-%d %H:%M:%S')] where [sign_dict] is built *)
  now_str : string;
  (** [self._run_api_sign()], which never raises *)
  run_api_sign : api_result;
  (** [self._fetch_attendance_record()]; [None] when the call raises *)
  attendance : option json;
  (** [datetime.now()] and [datetime.utcnow()] in the reconciliation *)
  today : Z;
  utcnow : Z;
  (** the clock and the store faults of the two [_save_sign_history] calls *)
  save_main : save_env;
  save_handler : save_env;
  (** [self._save_last_sign_date()]: the string it writes, and the text of
      the exception when [save_data] raises *)
  last_sign_now : string;
  last_sign_date_fault : option string;
  (** [self._send_sign_notification(...)] returns *)
  notification_sent : bool;
  (** the statistics were computed and written *)
  stats_written : bool;
  (** [random.randint(5, 15)] *)
  retry_minutes : Z;
  (** [datetime.now(tz=pytz.timezone(settings.TZ)) + timedelta(...)], or the
      text of the exception the time zone lookup or the creation of the
      scheduler raises *)
  retry_time : Z;
  scheduler_fault : option string;
  (** [int(time.time())] *)
  time_time : Z;
  (** the [n]-th call of [self.post_message]: the text of the exception it
      raises, if it does *)
  post_message_fault : nat -> option string;
  (** [datetime.now().strftime(...)] in the handler *)
  handler_now_str : string
}.

Inductive event : Type :=
| SaveHistory (entry : sign_entry)   (** a call of [_save_sign_history] *)
| Notify (title : string) (about : json)  (** a [post_message] that returned *)
| RemoveJob (id : string)
| AddJob (id : string).

(** State of the flow: the instance, what happened so far, and the number
    of [post_message] calls made. *)
Record flow_state : Type := mk_flow {
  self : plugin;
  events : list event;
  posts : nat
}.

(** A step either returns or raises, with the text of the exception. *)
Definition flow (A : Type) : Type := flow_state -> flow_state * (A + string).

Definition ret {A} (a : A) : flow A := fun s => (s, inl a).
Definition raise {A} (e : string) : flow A := fun s => (s, inr e).
Definition bind {A B} (m : flow A) (k : A -> flow B) : flow B :=
  fun s => match m s with
           | (s', inl a) => k a s'
           | (s', inr e) => (s', inr e)
           end.

Notation "'letf' x ':=' m 'in' k" := (bind m (fun x => k))
  (at level 10, x name, m at level 200, k at level 200).
Notation "'dof' m 'in' k" := (bind m (fun _ => k))
  (at level 10, m at level 200, k at level 200).

Definition read {A} (f : plugin -> A) : flow A := fun s => (s, inl (f (self s))).
Definition update (f : plugin -> plugin) : flow unit :=
  fun s => ({| self := f (self s); events := events s; posts := posts s |}, inl tt).
Definition emit (ev : event) : flow unit :=
  fun s => ({| self := self s; events := events s ++ [ev]; posts := posts s |}, inl tt).

(** [self._save_sign_history(sign_dict)] *)
Definition save_sign_history (L : pylib) (E : save_env) (sign_dict : sign_entry)
  : flow sign_entry :=
  fun s =>
    let '(st, d) := _save_sign_history L E (_history_days (self s))
                      (data (self s)) sign_dict in
    ({| self := set_data (self s) st;
        events := events s ++ [SaveHistory sign_dict];
        posts := posts s |}, inl d).

(** [self.post_message(mtype=..., title=title, text=...)] *)
Definition post_message (E : sign_env) (title : string) (about : json) : flow unit :=
  fun s =>
    let s' := {| self := self s; events := events s; posts := S (posts s) |} in
    match post_message_fault E (posts s) with
    | Some e => (s', inr e)
    | None => ({| self := self s; events := events s ++ [Notify title about];
                  posts := S (posts s) |}, inl tt)
    end.

(** [if self._notify: self.post_message(...)] *)
Definition notify (E : sign_env) (title : string) (about : json) : flow unit :=
  letf n := read _notify in
  if (n : bool) then post_message E title about else ret tt.

(** The [try] around the statistics. *)
Definition refresh_stats (E : sign_env) : flow unit :=
  if stats_written E
  then update (fun p => set_data p (save_other (data p) "last_signin_stats"))
  else ret tt.

(** Python's name for the type of a value, and the text of the
    [AttributeError] that [v.get] raises on a value that is no dict. *)
Definition type_name (v : json) : string :=
  match v with
  | JNull => "NoneType"
  | JBool _ => "bool"
  | JNum q => if Pos.eqb (Qden q) 1 then "int" else "float"
  | JStr _ => "str"
  | JArr _ => "list"
  | JObj _ => "dict"
  end.

Definition no_get (v : json) : string :=
  "'" +:+ type_name v +:+ "' object has no attribute 'get'".

(** The reward fields of the success path. *)
Definition with_reward (sign_dict : sign_entry) (result : api_result)
    (attendance_record : option json) : sign_entry + string :=
  let from_result :=
    match r_gain result with
    | Some g => if truthy g
                then {| date := date sign_dict; status := status sign_dict;
                        message := message sign_dict; gain := Some g;
                        rank := None; total_signers := None |}
                else sign_dict
    | None => sign_dict
    end in
  match attendance_record with
  | None => inl from_result
  | Some rec =>
      if truthy rec then
        match rec with
        | JObj _ =>
            let g := Proxies.dict_get rec "gain" in
            if truthy g then
              if truthy (Proxies.dict_get rec "rank")
              then inl {| date := date sign_dict; status := status sign_dict;
                          message := message sign_dict; gain := Some g;
                          rank := Some (Proxies.dict_get rec "rank");
                          total_signers := Some (Proxies.dict_get rec "total_signers") |}
              else inl {| date := date sign_dict; status := status sign_dict;
                          message := message sign_dict; gain := Some g;
                          rank := None; total_signers := None |}
            else inl from_result
        | _ => inr (no_get rec)
        end
      else inl from_result
  end.

(** *** The reconciliation of a failed sign-in *)

Inductive reconciliation : Type :=
| Unchanged
| ConfirmedByRecord
| TimeWindow.

(** Half an hour.  The code compares
    [abs((current_time - record_time).total_seconds() / 3600)] with [0.5];
    the difference is a whole number of microseconds, and the float
    comparison holds exactly when it is below 1 800 000 000. *)
Definition HALF_HOUR : Z := 1800 * US_PER_SECOND.

(** The [try] block after [# 最后兜底]: every exception leaves the verdict
    as it is. *)
Definition reconcile (L : pylib) (E : sign_env) (attendance_record : option json)
  : reconciliation :=
  match attendance_record with
  | None => Unchanged
  | Some rec =>
      if truthy rec then
        match get rec "created_at" with
        | Some (JStr s) =>
            if String.eqb s "" then Unchanged
            else
              match fromisoformat L (replace_Z s) with
              | Some record_date =>
                  if date_of record_date =? today E / US_PER_DAY
                  then ConfirmedByRecord
                  else
                    let record_time := replace_tzinfo_none record_date in
                    if Z.abs (utcnow E - wall record_time) <? HALF_HOUR
                    then TimeWindow
                    else Unchanged
              | None => Unchanged
              end
        | _ => Unchanged
        end
      else Unchanged
  end.

Definition STATUS_FAILED : string := "签到失败".
Definition STATUS_CONFIRMED : string := "已签到（记录确认）".
Definition STATUS_TIME_WINDOW : string := "签到成功（兜底时间验证）".

(** The result and the status after the reconciliation. *)
Definition reconciled (r : reconciliation) (result : api_result)
  : api_result * string :=
  match r with
  | Unchanged => (result, STATUS_FAILED)
  | ConfirmedByRecord =>
      ({| r_success := true; r_signed := r_signed result;
          r_already_signed := true;
          r_message := JStr "今日已签到（记录确认）";
          r_gain := r_gain result; r_current := r_current result |},
       STATUS_CONFIRMED)
  | TimeWindow =>
      ({| r_success := true; r_signed := true;
          r_already_signed := r_already_signed result;
          r_message := JStr STATUS_TIME_WINDOW;
          r_gain := r_gain result; r_current := r_current result |},
       STATUS_TIME_WINDOW)
  end.

(** *** Retry scheduling *)

Definition RETRY_PREFIX : string := "nodeseek_retry_".

(** [f"nodeseek_retry_{int(time.time())}"] *)
Definition retry_id (t : Z) : string := RETRY_PREFIX +:+ str_of_int t.

Definition is_retry_id (id : string) : bool := String.prefix RETRY_PREFIX id.

Definition FAILURE_TITLE : string := "【NodeSeek论坛签到失败】".
Definition ERROR_TITLE : string := "【NodeSeek论坛签到出错】".

(** The branch [if max_retries and self._retry_count < max_retries]. *)
Definition schedule_retry (E : sign_env) (max_retries : Z) (result : api_result)
  : flow unit :=
  dof update (fun p => set_retry_count p (_retry_count p + 1)) in
  match scheduler_fault E with
  | Some e => raise e
  | None =>
      dof update (fun p => match _scheduler p with
                           | Some _ => p
                           | None => set_scheduler p
                                       (Some {| running := true; jobs := [] |})
                           end) in
      letf old := read _scheduled_retry in
      letf sched := read _scheduler in
      let s0 := default {| running := true; jobs := [] |} sched in
      letf s1 := match old with
                 | Some id =>
                     if String.eqb id "" then ret s0
                     else match remove_job id s0 with
                          | Some s1 => dof emit (RemoveJob id) in ret s1
                          | None => ret s0
                          end
                 | None => ret s0
                 end in
      let id := retry_id (time_time E) in
      dof update (fun p => set_scheduled_retry (set_scheduler p (Some s1)) (Some id)) in
      let j := {| job_id := id;
                  job_name := "NodeSeek论坛签到重试";
                  run_date := retry_time E |} in
      match add_job j s1 with
      | None => raise ("Job identifier (" +:+ id +:+ ") conflicts with an existing job")
      | Some s2 =>
          dof update (fun p => set_scheduler p (Some s2)) in
          dof emit (AddJob id) in
          notify E FAILURE_TITLE (r_message result)
      end
  end.

(** *** The main flow *)

Definition STATUS_SUCCESS : string := "签到成功".
Definition STATUS_ALREADY : string := "已签到".
Definition STATUS_NO_COOKIE : string := "签到失败: 未配置Cookie".

(** [f"签到出错: {str(e)}"] *)
Definition status_error (e : string) : string := "签到出错: " +:+ e.

(** [{"date": d, "status": st}], with ["message": m] when given *)
Definition entry (d st : string) (m : option json) : sign_entry :=
  {| date := Some (JStr d); status := st; message := m;
     gain := None; rank := None; total_signers := None |}.

(** [sign_dict["status"] = st] *)
Definition set_status (r : sign_entry) (st : string) : sign_entry :=
  {| date := date r; status := st; message := message r;
     gain := gain r; rank := rank r; total_signers := total_signers r |}.

(** [self._save_last_sign_date()] *)
Definition _save_last_sign_date (E : sign_env) : flow unit :=
  match last_sign_date_fault E with
  | Some e => raise e
  | None => update (fun p => set_data p (save_last_sign_date (data p) (last_sign_now E)))
  end.

(** The guarded notification of the success path: its exceptions are
    caught on the spot. *)
Definition notify_success (E : sign_env) (result : api_result) : flow unit :=
  letf n := read _notify in
  if ((n : bool) && notification_sent E)%bool
  then emit (Notify "【NodeSeek论坛签到成功】" (r_message result))
  else ret tt.

(** The body of the outer [try]. *)
Definition main_flow (L : pylib) (E : sign_env) : flow sign_entry :=
  letf cookie := read _cookie in
  if String.eqb cookie "" then
    letf sign_dict :=
      save_sign_history L (save_main E) (entry (now_str E) STATUS_NO_COOKIE None) in
    dof notify E FAILURE_TITLE (JStr "未配置Cookie，请在设置中添加Cookie") in
    ret sign_dict
  else
    let result := run_api_sign E in
    let attendance_record := attendance E in
    if r_success result then
      let sign_dict :=
        entry (now_str E)
          (if r_already_signed result then STATUS_ALREADY else STATUS_SUCCESS)
          (Some (r_message result)) in
      match with_reward sign_dict result attendance_record with
      | inr e => raise e
      | inl sign_dict =>
          letf sign_dict := save_sign_history L (save_main E) sign_dict in
          dof _save_last_sign_date E in
          dof update (fun p => set_retry_count p 0) in
          dof notify_success E result in
          dof refresh_stats E in
          ret sign_dict
      end
    else
      let sign_dict := entry (now_str E) STATUS_FAILED (Some (r_message result)) in
      let verdict := reconciled (reconcile L E attendance_record) result in
      let result := verdict.1 in
      let sign_dict := set_status sign_dict verdict.2 in
      letf sign_dict := save_sign_history L (save_main E) sign_dict in
      dof refresh_stats E in
      letf configured := read _max_retries in
      let max_retries := default 0 configured in
      letf retry_count := read _retry_count in
      if (negb (max_retries =? 0) && (retry_count <? max_retries))%bool
      then dof schedule_retry E max_retries result in ret sign_dict
      else dof notify E FAILURE_TITLE (r_message result) in ret sign_dict.

(** The [except Exception as e] of [sign]. *)
Definition handler (L : pylib) (E : sign_env) (e : string) : flow sign_entry :=
  letf sign_dict :=
    save_sign_history L (save_handler E)
      (entry (handler_now_str E) (status_error e) None) in
  dof notify E ERROR_TITLE (JStr e) in
  ret sign_dict.

(** [sign()]: the instance afterwards, what happened, and the value
    returned or the text of the exception that escapes. *)
Definition sign (L : pylib) (E : sign_env) (p : plugin)
  : plugin * list event * (sign_entry + string) :=
  match main_flow L E {| self := p; events := []; posts := 0 |} with
  | (s1, inl d) => (self s1, events s1, inl d)
  | (s1, inr e) =>
      let '(s2, r) := handler L E e s1 in (self s2, events s2, r)
  end.

(** The entries handed to [_save_sign_history], in order. *)
Fixpoint appended (evs : list event) : list sign_entry :=
  match evs with
  | [] => []
  | SaveHistory e :: rest => e :: appended rest
  | _ :: rest => appended rest
  end.

(** *** The scheduler between invocations *)

(** [stop_service] *)
Definition stop_service (p : plugin) : plugin :=
  match _scheduler p with
  | Some _ => set_scheduler p None
  | None => p
  end.

(** A job with a [date] trigger fires: the scheduler takes it out of the
    store. *)
Definition job_fired (id : string) (p : plugin) : plugin :=
  match _scheduler p with
  | Some s =>
      set_scheduler p
        (Some {| running := running s;
                 jobs := List.filter (fun j => negb (String.eqb (job_id j) id)) (jobs s) |})
  | None => p
  end.

(** The configuration [init_plugin] reads, after its numeric fallbacks. *)
Record config : Type := mk_config {
  cfg_cookie : string;
  cfg_notify : bool;
  cfg_onlyonce : bool;
  cfg_history_days : Z;
  cfg_max_retries : Z
}.

(** [init_plugin(config)], for the fields above and the scheduler: it stops
    the service, and for [onlyonce] starts a new scheduler with one job,
    whose id APScheduler generates. *)
Definition init_plugin (cfg : option config) (auto_id : string) (run_at : Z)
    (p : plugin) : plugin :=
  let p1 := stop_service p in
  match cfg with
  | None => p1
  | Some c =>
      {| _cookie := cfg_cookie c; _notify := cfg_notify c;
         _history_days := Some (cfg_history_days c);
         _max_retries := Some (cfg_max_retries c);
         _retry_count := _retry_count p1;
         _scheduled_retry := _scheduled_retry p1;
         _scheduler :=
           if cfg_onlyonce c
           then Some {| running := true;
                        jobs := [{| job_id := auto_id;
                                    job_name := "NodeSeek论坛签到";
                                    run_date := run_at |}] |}
           else _scheduler p1;
         data := data p1 |}
  end.

(** The jobs in the store, and those among them that are retries. *)
Definition pending (p : plugin) : list job :=
  match _scheduler p with Some s => jobs s | None => [] end.

Definition retry_jobs (p : plugin) : list job :=
  List.filter (fun j => is_retry_id (job_id j)) (pending p).

(** Ids are unique in the store, and a pending retry is the one the
    instance remembers. *)
Definition retry_invariant (p : plugin) : Prop :=
  NoDup (map job_id (pending p)) /\
  forall j, In j (pending p) -> is_retry_id (job_id j) = true ->
            _scheduled_retry p = Some (job_id j).

(** What can happen to an instance. *)
Inductive step : plugin -> plugin -> Prop :=
| step_sign L E p : step p (sign L E p).1.1
| step_fired id p : step p (job_fired id p)
| step_stop p : step p (stop_service p)
| step_init cfg auto_id run_at p :
    is_retry_id auto_id = false -> step p (init_plugin cfg auto_id run_at p).

(** A fresh instance has no scheduler and no retry id. *)
Inductive reachable : plugin -> Prop :=
| reach_fresh p :
    _scheduler p = None -> _scheduled_retry p = None -> reachable p
| reach_step p p' : reachable p -> step p p' -> reachable p'.

(** The time stamp of the attendance record, when it has one that parses. *)
Definition record_timestamp (L : pylib) (attendance_record : option json)
  : option datetime :=
  match attendance_record with
  | Some (JObj kvs) =>
      match assoc "created_at" kvs with
      | Some (JStr s) =>
          if String.eqb s "" then None else fromisoformat L (replace_Z s)
      | _ => None
      end
  | _ => None
  end.

End Sign.

(** ** Vocabulary of the statements, and concrete inputs *)

Module Cases.
Import Py Proxies Time Transport.

(** Every call but the last one had an outcome that lets the chain go on. *)
Definition earlier_rejected (net : network) (trace : list call) : Prop :=
  forall (i : nat) (k : call),
    trace !! i = Some k -> (S i < length trace)%nat -> rejected (net i k) = true.

(** The outcome of the last call of a trace. *)
Definition last_outcome (net : network) (trace : list call) : option (call * outcome) :=
  match last trace with
  | Some k => Some (k, net (length trace - 1)%nat k)
  | None => None
  end.

(** A block page of the anti-bot layer. *)
Definition block_page : response :=
  {| status_code := 403;
     content_type := Some "text/html; charset=UTF-8";
     content_encoding := None;
     json_body := None;
     text := "<html><title>Just a moment...</title></html>" |}.

(** A network on which every request is answered by the block page. *)
Definition all_blocked : network := fun _ _ => Returned block_page.

(** A helper on a host without cloudscraper and curl_cffi, no proxy. *)
Definition plain_helper : bypass_helper := helper_init false false false JNull false.

(** A plugin instance where only curl_cffi is installed. *)
Definition curl_client : client :=
  {| HAS_CLOUDSCRAPER := false; HAS_CURL_CFFI := true;
     _scraper := None; _verify_ssl := false |}.

Definition proxy_url : string := "http://127.0.0.1:7890".

(** [settings.PROXY] as a single URL, and its normal form. *)
Definition the_proxies : json := _normalize_proxies (JStr proxy_url).

(** The double quote character. *)
Definition dq : string := String (ascii_of_nat 34) EmptyString.

(** A plugin instance without cloudscraper and curl_cffi. *)
Definition bare_client : client :=
  {| HAS_CLOUDSCRAPER := false; HAS_CURL_CFFI := false;
     _scraper := None; _verify_ssl := false |}.

(** Nothing fails in the fallback, and there is no scraper to warm up. *)
Definition quiet_fallback : ApiSign.fallback_env :=
  {| ApiSign.save_response_fault := None;
     ApiSign.warm_get := Raised "no scraper";
     ApiSign.warm_post := Raised "no scraper" |}.

Definition json_response (status : Z) (body : json) (raw : string) : response :=
  {| status_code := status;
     content_type := Some "application/json; charset=utf-8";
     content_encoding := None;
     json_body := Some body;
     text := raw |}.

(** Scenario A: [{"success": true, "gain": 5, "current": 120}] *)
Definition scenario_a : response :=
  json_response 200
    (JObj [("success", JBool true); ("gain", JNum 5); ("current", JNum 120)])
    ("{" +:+ dq +:+ "success" +:+ dq +:+ ": true, " +:+ dq +:+ "gain" +:+ dq
     +:+ ": 5, " +:+ dq +:+ "current" +:+ dq +:+ ": 120}").

(** Scenario B: [{"success": false, "message": "今日已完成签到"}] *)
Definition scenario_b_message : string := "今日已完成签到".
Definition scenario_b : response :=
  json_response 200
    (JObj [("success", JBool false); ("message", JStr scenario_b_message)])
    ("{" +:+ dq +:+ "success" +:+ dq +:+ ": false, " +:+ dq +:+ "message" +:+ dq
     +:+ ": " +:+ dq +:+ scenario_b_message +:+ dq +:+ "}").

(** A body that parses, with a [null] message:
    [{"success": false, "message": null}] *)
Definition null_message_text : string :=
  "{" +:+ dq +:+ "success" +:+ dq +:+ ": false, " +:+ dq +:+ "message" +:+ dq
  +:+ ": null}".
Definition null_message : response :=
  json_response 200
    (JObj [("success", JBool false); ("message", JNull)])
    null_message_text.

(** *** A run on 2024-05-01, 08:00 in a process on Shanghai time *)

Definition demo_lib : pylib := ref_pylib SHANGHAI.

Definition demo_now : Z := default 0 (ref_strptime "2024-05-01 08:00:00").

Definition demo_save : History.save_env :=
  {| History.get_fault := false; History.save_fault := false;
     History.now_default := demo_now; History.now_prune := demo_now;
     History.now_repair := fun _ => demo_now |}.

Definition demo_record (d : option string) (st : string) : History.sign_entry :=
  {| History.date := JStr <$> d; History.status := st; History.message := None;
     History.gain := None; History.rank := None; History.total_signers := None |}.

(** A stored history with a record of yesterday, one of two months ago and
    one whose date does not parse; and the record of the attendance board
    cached ten minutes after midnight, Shanghai time. *)
Definition demo_store : History.store :=
  {| History.sign_history :=
       Some [demo_record (Some "2024-04-30 08:01:12") "签到成功";
             demo_record (Some "2024-03-01 09:30:00") "签到失败";
             demo_record (Some "yesterday") "签到成功"];
     History.last_sign_date := Some "2024-04-30 08:01:12";
     History.last_attendance_record :=
       JObj [("created_at", JStr "2024-04-30T16:10:00.000Z"); ("gain", JNum 5)];
     History.writes := [] |}.

(** A stored history whose only record carries a number for a date. *)
Definition number_dated_store : History.store :=
  {| History.sign_history :=
       Some [{| History.date := Some (JNum 20240430);
                History.status := "签到成功"; History.message := None;
                History.gain := None; History.rank := None;
                History.total_signers := None |}];
     History.last_sign_date := Some "2024-04-30 08:01:12";
     History.last_attendance_record := JNull;
     History.writes := [] |}.

(** The same store a day later: the cached record is of the day before. *)
Definition demo_now_next_day : Z := demo_now + US_PER_DAY.

(** An attendance-board answer that is no JSON. *)
Definition html_answer : response :=
  {| status_code := 200; content_type := Some "text/plain";
     content_encoding := None; json_body := None;
     text := "Just a moment..." |}.

Definition answers_html : network := fun _ _ => Returned html_answer.

Definition demo_fetch (now : Z) : Attendance.fetch_env :=
  {| Attendance.brotli := None;
     Attendance.now_instant := now - SHANGHAI;
     Attendance.save_response_fault := false;
     Attendance.get_cached_fault := false;
     Attendance.save_record_fault := false |}.

(** The scheduler calls among the events. *)
Definition job_events (evs : list Sign.event) : list Sign.event :=
  List.filter (fun ev => match ev with
                         | Sign.RemoveJob _ | Sign.AddJob _ => true
                         | _ => false
                         end) evs.

(** The scheduler a retry is registered with: the one of the instance, or
    a new one. *)
Definition scheduler_in_use (p : Sign.plugin) : Sign.scheduler :=
  default {| Sign.running := true; Sign.jobs := [] |} (Sign._scheduler p).

(** The retry the instance remembers, when it is still in the store. *)
Definition pending_retry (p : Sign.plugin) : option string :=
  match Sign._scheduled_retry p with
  | Some id =>
      if (negb (String.eqb id "") && Sign.has_job id (scheduler_in_use p))%bool
      then Some id else None
  | None => None
  end.

(** The store after the removal of that retry. *)
Definition without_pending_retry (p : Sign.plugin) : Sign.scheduler :=
  match pending_retry p with
  | Some id => default (scheduler_in_use p) (Sign.remove_job id (scheduler_in_use p))
  | None => scheduler_in_use p
  end.

Definition retry_job (E : Sign.sign_env) : Sign.job :=
  {| Sign.job_id := Sign.retry_id (Sign.time_time E);
     Sign.job_name := "NodeSeek论坛签到重试";
     Sign.run_date := Sign.retry_time E |}.

(** *** Runs of the entry point *)

(** An instance with a cookie, notifications on, and nothing stored. *)
Definition demo_plugin (max_retries : Z) : Sign.plugin :=
  {| Sign._cookie := "session=abc"; Sign._notify := true;
     Sign._history_days := Some 30; Sign._max_retries := Some max_retries;
     Sign._retry_count := 0; Sign._scheduled_retry := None;
     Sign._scheduler := None; Sign.data := History.empty_store |}.

(** A run at [t] seconds after the epoch in which the sign-in call fails
    with the cookie-invalid message. *)
Definition failing_run (t : Z) (att : option json) (posts : nat -> option string)
  : Sign.sign_env :=
  {| Sign.now_str := "2024-05-01 08:00:00";
     Sign.run_api_sign := ApiSign.failed (JStr ApiSign.COOKIE_INVALID);
     Sign.attendance := att;
     Sign.today := demo_now;
     Sign.utcnow := demo_now - SHANGHAI;
     Sign.save_main := demo_save;
     Sign.save_handler := demo_save;
     Sign.last_sign_now := "2024-05-01 08:00:01";
     Sign.last_sign_date_fault := None;
     Sign.notification_sent := true;
     Sign.stats_written := false;
     Sign.retry_minutes := 7;
     Sign.retry_time := demo_now + 7 * 60 * US_PER_SECOND;
     Sign.scheduler_fault := None;
     Sign.time_time := t;
     Sign.post_message_fault := posts;
     Sign.handler_now_str := "2024-05-01 08:00:02" |}.

Definition posts_fine : nat -> option string := fun _ => None.

(** The same host an hour earlier, at 07:00 local time, which is 23:00 UTC
    of the day before: a sign-in call that fails, retries off. *)
Definition early_run (att : option json) : Sign.sign_env :=
  {| Sign.now_str := "2024-05-01 07:00:00";
     Sign.run_api_sign := ApiSign.failed (JStr ApiSign.COOKIE_INVALID);
     Sign.attendance := att;
     Sign.today := demo_now - US_PER_HOUR;
     Sign.utcnow := demo_now - US_PER_HOUR - SHANGHAI;
     Sign.save_main := demo_save;
     Sign.save_handler := demo_save;
     Sign.last_sign_now := "2024-05-01 07:00:01";
     Sign.last_sign_date_fault := None;
     Sign.notification_sent := true;
     Sign.stats_written := false;
     Sign.retry_minutes := 7;
     Sign.retry_time := demo_now - US_PER_HOUR + 7 * 60 * US_PER_SECOND;
     Sign.scheduler_fault := None;
     Sign.time_time := 1714518000;
     Sign.post_message_fault := fun _ => None;
     Sign.handler_now_str := "2024-05-01 07:00:02" |}.

(** The first [post_message] of the run raises, later ones return. *)
Definition first_post_fails : nat -> option string :=
  fun n => match n with O => Some "connection refused" | S _ => None end.

Definition posts_fail : nat -> option string := fun _ => Some "connection refused".

(** Two failed sign-ins ten minutes apart, with three retries allowed. *)
Definition first_run : Sign.sign_env := failing_run 1714521600 None posts_fine.
Definition second_run : Sign.sign_env := failing_run 1714522200 None posts_fine.
Definition after_first_run : Sign.plugin :=
  (Sign.sign demo_lib first_run (demo_plugin 3)).1.1.

(** The board lists a record of 00:10 on 2024-05-01, written with the
    offset of Shanghai, and the same moment written in UTC. *)
Definition record_local : json :=
  JObj [("created_at", JStr "2024-05-01T00:10:00+08:00"); ("gain", JNum 5)].
Definition record_utc : json :=
  JObj [("created_at", JStr "2024-04-30T16:10:00.000Z"); ("gain", JNum 5)].

(** A ledger of two pages: three sign-in rewards within the last seven
    days, a spending, and a reward of a month ago. *)
Definition demo_ledger : list (list Stats.row) :=
  [[Stats.mk_row 3 120 "签到收益3个鸡腿" "2024-04-30T16:10:00.000Z";
    Stats.mk_row (-10) 117 "悬赏支出" "2024-04-29T10:00:00.000Z";
    Stats.mk_row 2 127 "签到收益2个鸡腿" "2024-04-29T00:05:00.000Z"];
   [Stats.mk_row 1 125 "签到收益1个鸡腿" "2024-04-28T01:00:00.000Z";
    Stats.mk_row 5 124 "签到收益5个鸡腿" "2024-04-01T01:00:00.000Z"]].

Definition demo_stats_env : Stats.stats_env :=
  {| Stats.ledger := Stats.serve demo_ledger;
     Stats.now_shanghai := demo_now - SHANGHAI;
     Stats.get_history_fault := false |}.

End Cases.

(** * Properties *)

(** ** Proxy normalisation *)

Section ProxyFacts.
Import Py Proxies.

Lemma assoc_In k kvs x : assoc k kvs = Some x -> exists k', In (k', x) kvs.
Proof.
  induction kvs as [|[k' v] rest IH]; simpl; [discriminate|].
  destruct (String.eqb k k').
  - intros [= ->]. exists k'. now left.
  - intros H. destruct (IH H) as [k0 Hk0]. exists k0. now right.
Qed.

Lemma url_valued_get v k :
  url_valued v -> truthy (dict_get v k) = true -> is_url (dict_get v k) = true.
Proof.
  destruct v as [| | | |l|kvs]; simpl; try discriminate.
  intros Hall. destruct (assoc k kvs) as [x|] eqn:Hx; simpl; [|discriminate].
  destruct (assoc_In _ _ _ Hx) as [k' Hin].
  rewrite Forall_forall in Hall. specialize (Hall (k', x)).
  intros Ht. destruct Hall as [Hu|Hf].
  - apply list_elem_of_In. exact Hin.
  - exact Hu.
  - simpl in Hf. congruence.
Qed.

Lemma first_truthy_truthy l x : first_truthy l = Some x -> truthy x = true.
Proof.
  induction l as [|y l IH]; simpl; [discriminate|].
  destruct (truthy y) eqn:Hy; [intros [= <-]; exact Hy | exact IH].
Qed.

Lemma first_truthy_In l x : first_truthy l = Some x -> In x l.
Proof.
  induction l as [|y l IH]; simpl; [discriminate|].
  destruct (truthy y); [intros [= <-]; now left | intros H; right; auto].
Qed.

Lemma helper_normalize_same v : helper_normalize_proxies v = _normalize_proxies v.
Proof. destruct v; reflexivity. Qed.

Lemma pick_cases a b c d :
  let h := Py.or_else a (Py.or_else b (Py.or_else c d)) in
  let s := Py.or_else c (Py.or_else d (Py.or_else a b)) in
  (Py.truthy h = false /\ Py.truthy s = false /\
   Proxies.first_truthy [a; b; c; d] = None /\
   Proxies.first_truthy [c; d; a; b] = None)
  \/
  (Py.truthy h = true /\ Py.truthy s = true /\
   Proxies.first_truthy [a; b; c; d] = Some h /\
   Proxies.first_truthy [c; d; a; b] = Some s /\
   Py.or_else h s = h /\ Py.or_else s h = s).
Proof.
  unfold Py.or_else; simpl.
  destruct (Py.truthy a) eqn:Ha, (Py.truthy b) eqn:Hb, (Py.truthy c) eqn:Hc,
    (Py.truthy d) eqn:Hd;
    rewrite ?Ha, ?Hb, ?Hc, ?Hd; auto 10.
Qed.

Lemma normalize_obj kvs :
  kvs <> [] ->
  Proxies._normalize_proxies (Py.JObj kvs) =
  let v := Py.JObj kvs in
  let h := Py.or_else (Proxies.dict_get v "http")
             (Py.or_else (Proxies.dict_get v "HTTP")
                (Py.or_else (Proxies.dict_get v "https")
                   (Proxies.dict_get v "HTTPS"))) in
  let s := Py.or_else (Proxies.dict_get v "https")
             (Py.or_else (Proxies.dict_get v "HTTPS")
                (Py.or_else (Proxies.dict_get v "http")
                   (Proxies.dict_get v "HTTP"))) in
  if (negb (Py.truthy h) && negb (Py.truthy s))%bool then Py.JNull
  else Proxies.proxy_dict (Py.or_else h s) (Py.or_else s h).
Proof. destruct kvs; [contradiction | reflexivity]. Qed.

End ProxyFacts.

(** C9.  For every raw proxy value (None, a string, a mapping, anything
    else) both normalisers are total, agree, and give either [None] or the
    mapping with exactly the keys ["http"] and ["https"], both holding a
    truthy value: the string itself, or for a mapping the first non-empty
    entry in the order http, HTTP, https, HTTPS for the [http] slot and
    https, HTTPS, http, HTTP for the [https] slot, so that each slot falls
    back to the other scheme's URL.  [None] comes out exactly when there is
    no usable URL.  When the mapping's values are URLs or empty, both slots
    hold a non-empty URL string. *)
Theorem normalize_proxies_never_partial (v : Py.json) :
  Proxies.helper_normalize_proxies v = Proxies._normalize_proxies v /\
  ((Proxies._normalize_proxies v = Py.JNull /\
    match v with
    | Py.JStr u => u = ""
    | Py.JObj _ => Proxies.first_truthy (Proxies.http_first v) = None
                   /\ Proxies.first_truthy (Proxies.https_first v) = None
    | _ => True
    end)
   \/
   (exists h s,
      Proxies._normalize_proxies v = Py.JObj [("http", h); ("https", s)] /\
      Py.truthy h = true /\ Py.truthy s = true /\
      match v with
      | Py.JStr _ => h = v /\ s = v
      | _ => Proxies.first_truthy (Proxies.http_first v) = Some h
             /\ Proxies.first_truthy (Proxies.https_first v) = Some s
      end /\
      (Proxies.url_valued v ->
       Proxies.is_url h = true /\ Proxies.is_url s = true))).
Proof.
  split; [apply helper_normalize_same|].
  destruct v as [|b|q|u|l|kvs].
  - left; split; reflexivity || exact I.
  - left; split; [destruct b; reflexivity | exact I].
  - left; split; [unfold Proxies._normalize_proxies; simpl;
                  destruct (Qeq_bool q 0); reflexivity | exact I].
  - destruct (String.eqb_spec u "") as [->|Hne].
    + left; split; reflexivity.
    + right. exists (Py.JStr u), (Py.JStr u).
      assert (Ht : Py.truthy (Py.JStr u) = true).
      { simpl. destruct (String.eqb_spec u ""); [contradiction|reflexivity]. }
      unfold Proxies._normalize_proxies. rewrite Ht. simpl.
      repeat split; try exact Ht.
      all: simpl in Ht; exact Ht.
  - left; split; [destruct l; reflexivity | exact I].
  - destruct kvs as [|kv rest].
    { left. split; [reflexivity|]. split; reflexivity. }
    rewrite normalize_obj by discriminate.
    remember (Py.JObj (kv :: rest)) as v eqn:Hv.
    assert (Hurl : forall k, Proxies.url_valued v ->
                     Py.truthy (Proxies.dict_get v k) = true ->
                     Proxies.is_url (Proxies.dict_get v k) = true)
      by (intros; now apply url_valued_get).
    unfold Proxies.http_first, Proxies.https_first. cbv zeta.
    pose proof (Hurl "http") as Ua. pose proof (Hurl "HTTP") as Ub.
    pose proof (Hurl "https") as Uc. pose proof (Hurl "HTTPS") as Ud.
    clear Hurl.
    generalize dependent (Proxies.dict_get v "http"). intros a Ua.
    generalize dependent (Proxies.dict_get v "HTTP"). intros b Ub.
    generalize dependent (Proxies.dict_get v "https"). intros c Uc.
    generalize dependent (Proxies.dict_get v "HTTPS"). intros d Ud.
    destruct (pick_cases a b c d) as [(Hh & Hs & Fh & Fs)|(Hh & Hs & Fh & Fs & Eh & Es)];
      cbv zeta in *.
    + left. rewrite Hh, Hs. simpl. auto.
    + right. rewrite Hh, Hs, Eh, Es. simpl.
      eexists _, _. split; [reflexivity|].
      repeat split; auto.
      * destruct (first_truthy_In _ _ Fh) as [E|[E|[E|[E|[]]]]];
          rewrite <- E in *; auto.
      * destruct (first_truthy_In _ _ Fs) as [E|[E|[E|[E|[]]]]];
          rewrite <- E in *; auto.
Qed.

(** ** The transport adapter chain *)

Section TransportFacts.
Import Py Proxies Transport Cases.

Lemma in_order_app_single (l : list adapter) :
  in_order l = true -> in_order (l ++ [Requests]) = true.
Proof.
  induction l as [|a [|b rest] IH]; simpl; auto.
  - intros _. destruct a; reflexivity.
  - intros H. apply andb_true_iff in H as [H1 H2].
    apply andb_true_iff. split; [exact H1|]. apply IH. exact H2.
Qed.

Lemma accept_test (r : response) :
  (negb ((status_code r =? 400) || (status_code r =? 403))
   && negb (str_in "text/html" (lower (ct_of r))))%bool = negb (blocked r).
Proof. unfold blocked. destruct (_ || _)%bool, (str_in _ _); reflexivity. Qed.

(** Case analysis on a chain: every test it makes is decided. *)
Ltac chain_cases :=
  repeat (simpl;
          match goal with
          | |- context [match ?x with _ => _ end] =>
              match type of x with
              | outcome => destruct x eqn:?
              | bool => destruct x eqn:?
              | option _ => destruct x eqn:?
              end
          | |- context [if ?x then _ else _] => destruct x eqn:?
          end);
  simpl;
  repeat match goal with
    | H : (negb _ && negb _)%bool = _ |- _ =>
        rewrite accept_test in H;
        match type of H with
        | context [blocked ?r] =>
            destruct (blocked r) eqn:?; simpl in H; try discriminate; clear H
        end
    end.

Ltac use_outcomes :=
  repeat match goal with
    | H : ?n _ _ = _ |- context [?n _ _] => rewrite H
    end.

Ltac earlier_rejected_tac :=
  let i := fresh "i" in let k := fresh "k" in
  let Hi := fresh "Hi" in let Hlt := fresh "Hlt" in
  unfold earlier_rejected; intros i k Hi Hlt;
  repeat (destruct i as [|i];
          [simpl in Hi, Hlt;
           first [lia | discriminate
                 | injection Hi as <-; use_outcomes; simpl; auto]
          |simpl in Hi, Hlt; try lia; try discriminate]).

Ltac prefix_tried :=
  first [exists 1%nat; reflexivity | exists 2%nat; reflexivity
        | exists 3%nat; reflexivity].

Ltac count_calls :=
  cbv [calls_via]; simpl; repeat split;
  first [lia | intros; first [lia | discriminate]].

Ltac chain_done :=
  split; [prefix_tried|];
  split; [count_calls|];
  split; [reflexivity|]; split; [earlier_rejected_tac|];
  eexists; split; [reflexivity|]; simpl; use_outcomes;
  repeat split; eauto;
  first [left; reflexivity | right; eexists; repeat split; eauto].

Lemma smart_post_chain (c : client) (net : network) (proxies : json) :
  let '(o, trace, _) := _smart_post c net proxies in
  (exists n, adapters_tried (map via trace) = take n (available c)) /\
  (calls_via Cloudscraper trace <= 1 /\ calls_via CurlCffi trace <= 2 /\
   calls_via Requests trace <= 1 /\
   (truthy proxies = false -> calls_via CurlCffi trace <= 1))%nat /\
  in_order (map via trace) = true /\ earlier_rejected net trace /\
  exists k, last trace = Some k /\
    match o with
    | Returned r =>
        net (length trace - 1)%nat k = Returned r /\ blocked r = false
    | Raised e =>
        via k = Requests /\
        (net (length trace - 1)%nat k = Raised e \/
         exists r, net (length trace - 1)%nat k = Returned r /\
                   blocked r = true /\ e = "requests non-JSON/non-200")
    end.
Proof.
  unfold _smart_post, via_cloudscraper, via_curl_cffi, via_requests_post.
  destruct c as [hcs hcurl sc vs].
  chain_cases.
  all: chain_done.
Qed.

Ltac passthrough_done :=
  split; [prefix_tried|];
  split; [count_calls|];
  split; [reflexivity|]; split; [earlier_rejected_tac|];
  eexists; split; [reflexivity|]; simpl; use_outcomes;
  first [reflexivity | eexists; repeat split; eauto].

Ltac helper_done :=
  split; [prefix_tried|];
  split; [reflexivity|]; split; [earlier_rejected_tac|];
  eexists; split; [reflexivity|]; simpl; use_outcomes;
  first [reflexivity | eexists; repeat split; eauto].

Lemma smart_get_chain (c : client) (net : network) (proxies : json) :
  let '(o, trace, _) := _smart_get c net proxies in
  (exists n, adapters_tried (map via trace) = take n (available c)) /\
  (calls_via Cloudscraper trace <= 1 /\ calls_via CurlCffi trace <= 2 /\
   calls_via Requests trace <= 1 /\
   (truthy proxies = false -> calls_via CurlCffi trace <= 1))%nat /\
  in_order (map via trace) = true /\ earlier_rejected net trace /\
  exists k, last trace = Some k /\
    match via k with
    | Requests => o = net (length trace - 1)%nat k
    | _ => exists r, o = Returned r /\
                     net (length trace - 1)%nat k = Returned r /\
                     blocked r = false
    end.
Proof.
  unfold _smart_get, via_cloudscraper, via_curl_cffi, via_requests_get.
  destruct c as [hcs hcurl sc vs].
  chain_cases.
  all: passthrough_done.
Qed.

Lemma helper_smart_get_chain (h : bypass_helper) (net : network) :
  let '(o, trace) := smart_get h net in
  (exists n, map via trace = take n (helper_available h)) /\
  in_order (map via trace) = true /\ earlier_rejected net trace /\
  exists k, last trace = Some k /\
    match via k with
    | Requests => o = net (length trace - 1)%nat k
    | _ => exists r, o = Returned r /\
                     net (length trace - 1)%nat k = Returned r /\
                     blocked r = false
    end.
Proof.
  unfold smart_get.
  destruct h as [hcs hcurl px vs sc].
  chain_cases.
  all: helper_done.
Qed.

(** C2, as the code has it.  In [_smart_post] the adapters the instance can
    use (cloudscraper when it is installed and a scraper was created,
    curl_cffi when it is installed, plain [requests] always) are tried in
    this order, from the first one on, none being skipped, curl_cffi being
    asked a second time in a row at most; every call before the last one
    raised or gave a response with status 400 or 403 or with [text/html] in
    its lower-cased content type; a response that is returned comes from the
    last call and passes that test; and an exception leaves the chain only
    from the plain [requests] attempt, either raised by the request or raised
    by the chain because that response looks blocked.  In
    [CloudFlareBypassHelper.smart_get] (and in [_smart_get]) the order and
    the test are the same for cloudscraper and curl_cffi, but the outcome of
    the plain [requests] attempt is handed to the caller as it comes. *)
Theorem adapter_chain_acceptance
    (c : client) (h : bypass_helper) (net : network) (proxies : json) :
  (let '(o, trace, _) := _smart_post c net proxies in
   (exists n, adapters_tried (map via trace) = take n (available c)) /\
   (calls_via Cloudscraper trace <= 1 /\ calls_via CurlCffi trace <= 2 /\
    calls_via Requests trace <= 1 /\
    (truthy proxies = false -> calls_via CurlCffi trace <= 1))%nat /\
   in_order (map via trace) = true /\ earlier_rejected net trace /\
   exists k, last trace = Some k /\
     match o with
     | Returned r =>
         net (length trace - 1)%nat k = Returned r /\ blocked r = false
     | Raised e =>
         via k = Requests /\
         (net (length trace - 1)%nat k = Raised e \/
          exists r, net (length trace - 1)%nat k = Returned r /\
                    blocked r = true /\ e = "requests non-JSON/non-200")
     end)
  /\
  (let '(o, trace) := smart_get h net in
   (exists n, map via trace = take n (helper_available h)) /\
   in_order (map via trace) = true /\ earlier_rejected net trace /\
   exists k, last trace = Some k /\
     match via k with
     | Requests => o = net (length trace - 1)%nat k
     | _ => exists r, o = Returned r /\
                      net (length trace - 1)%nat k = Returned r /\
                      blocked r = false
     end)
  /\
  (let '(o, trace, _) := _smart_get c net proxies in
   (exists n, adapters_tried (map via trace) = take n (available c)) /\
   (calls_via Cloudscraper trace <= 1 /\ calls_via CurlCffi trace <= 2 /\
    calls_via Requests trace <= 1 /\
    (truthy proxies = false -> calls_via CurlCffi trace <= 1))%nat /\
   in_order (map via trace) = true /\ earlier_rejected net trace /\
   exists k, last trace = Some k /\
     match via k with
     | Requests => o = net (length trace - 1)%nat k
     | _ => exists r, o = Returned r /\
                      net (length trace - 1)%nat k = Returned r /\
                      blocked r = false
     end).
Proof.
  split; [apply smart_post_chain|].
  split; [apply helper_smart_get_chain | apply smart_get_chain].
Qed.

(** C2 as stated fails for [CloudFlareBypassHelper.smart_get]: when the
    plain adapter answers with a block page (403, [text/html]), that
    response is returned to the caller and nothing is raised. *)
Lemma helper_returns_blocked_response :
  blocked block_page = true /\
  smart_get plain_helper all_blocked
  = (Returned block_page,
     [{| via := Requests; with_proxies := JNull; verify := false |}]).
Proof. split; reflexivity. Qed.

(** A content type in upper case is rejected as well: the test lowers it. *)
Example blocked_ignores_case :
  blocked {| status_code := 200; content_type := Some "Text/HTML";
             content_encoding := None; json_body := None; text := "" |} = true.
Proof. reflexivity. Qed.

(** C7.  With a proxy configured and curl_cffi answering with a block page,
    [_smart_post] asks curl_cffi a second time, once, and then goes on to
    plain [requests]; the second request goes through the same session, so
    it carries the same proxies as the first. *)
Theorem curl_retry_keeps_proxy :
  truthy the_proxies = true /\
  (_smart_post curl_client all_blocked the_proxies).1 =
    (Raised "requests non-JSON/non-200",
     [{| via := CurlCffi; with_proxies := the_proxies; verify := false |};
      {| via := CurlCffi; with_proxies := the_proxies; verify := false |};
      {| via := Requests; with_proxies := the_proxies; verify := false |}]) /\
  the_proxies = JObj [("http", JStr proxy_url); ("https", JStr proxy_url)].
Proof. repeat split; reflexivity. Qed.

(** The retry in general: whenever [_smart_post] or [_smart_get] calls
    curl_cffi twice, both calls are the same call, proxies included. *)
Lemma curl_retry_same_call (c : client) (net : network) (proxies : json) (n : nat) :
  forall r k1 k2, via_curl_cffi c net proxies n = (r, [k1; k2]) ->
    k1 = k2 /\ truthy proxies = true /\
    with_proxies k2 = session_proxies proxies /\
    rejected (net n k1) = true /\
    match r with
    | Some resp => net (S n) k2 = Returned resp /\ blocked resp = false
    | None => rejected (net (S n) k2) = true
    end.
Proof.
  intros r k1 k2. unfold via_curl_cffi.
  destruct (HAS_CURL_CFFI c); [|discriminate].
  destruct (truthy proxies) eqn:Hp.
  - destruct (net n _) as [resp|e] eqn:H1; [|discriminate].
    destruct (blocked resp) eqn:Hb; [|discriminate].
    destruct (net (S n) _) as [resp2|e2] eqn:H2.
    + rewrite accept_test. destruct (blocked resp2) eqn:Hb2; simpl;
        intros [= <- <- <-]; rewrite H1, H2; simpl; repeat split; auto.
    + intros [= <- <- <-]. rewrite H1, H2. simpl. repeat split; auto.
  - destruct (net n _) as [resp|e] eqn:H1; [|discriminate].
    destruct (blocked resp); discriminate.
Qed.


End TransportFacts.

(** ** The classifier of the sign-in response *)

Section ClassifierFacts.
Import Py Proxies Transport ApiSign Cases.

Opaque String.eqb str_in.

Lemma message_of_object data msg :
  message_of data = Some msg ->
  exists kvs, data = JObj kvs /\ msg = default (JStr "") (assoc "message" kvs).
Proof.
  unfold message_of. destruct data as [| | | | |kvs]; try discriminate.
  simpl. intros [= <-]. eauto.
Qed.

Lemma holds_contains needle msg :
  searchable msg = true -> contains needle msg = Some (holds needle msg).
Proof. unfold holds. destruct msg; try discriminate; reflexivity. Qed.

(** The success flag decides before the message is looked at. *)
Lemma classify_json_flag data msg status :
  message_of data = Some msg ->
  rule_holds data msg SuccessFlag = true ->
  classify_json data status
  = Some (rule_result data msg status (first_rule data msg)).
Proof.
  intros Hm Hflag. destruct (message_of_object _ _ Hm) as (kvs & -> & _).
  unfold message_of in Hm. unfold classify_json. rewrite Hm.
  unfold first_rule. cbn [List.find]. rewrite Hflag.
  simpl in Hflag. simpl. rewrite Hflag. reflexivity.
Qed.

(** The other rules, on a message the tests are defined on. *)
Lemma classify_json_table data msg status :
  message_of data = Some msg ->
  searchable msg = true ->
  classify_json data status
  = Some (rule_result data msg status (first_rule data msg)).
Proof.
  intros Hm Hs.
  destruct (rule_holds data msg SuccessFlag) eqn:Hflag;
    [now apply classify_json_flag|].
  destruct (message_of_object _ _ Hm) as (kvs & -> & _).
  unfold message_of in Hm. unfold classify_json. rewrite Hm.
  unfold first_rule. cbn [List.find]. rewrite Hflag.
  simpl in Hflag. cbn [get get_default mbind option_bind default from_option id].
  rewrite Hflag.
  rewrite !(holds_contains _ msg Hs).
  unfold rule_holds. cbn [get get_default default from_option id].
  destruct (holds "鸡腿" msg); [reflexivity|].
  destruct (holds "已完成签到" msg); [reflexivity|].
  destruct (is_str "USER NOT FOUND" msg
            || eq_int (default JNull (assoc "status" kvs)) 404)%bool;
    [reflexivity|].
  cbn [mbind option_bind].
  destruct (holds "签到" msg && (holds "成功" msg || holds "完成" msg))%bool;
    reflexivity.
Qed.

(** A message that is [None], a number or a boolean, under a success flag
    that is not [True]: the first test raises. *)
Lemma classify_json_raises data msg status :
  message_of data = Some msg ->
  rule_holds data msg SuccessFlag = false ->
  searchable msg = false ->
  classify_json data status = None.
Proof.
  intros Hm Hflag Hs. destruct (message_of_object _ _ Hm) as (kvs & -> & _).
  unfold message_of in Hm. unfold classify_json. rewrite Hm.
  simpl in Hflag. cbn [get get_default mbind option_bind default from_option id].
  rewrite Hflag. destruct msg; try discriminate; reflexivity.
Qed.

(** The rule chosen is the first one of the table that holds. *)
Lemma first_rule_is_first data msg :
  exists earlier later,
    [SuccessFlag; RewardWord; AlreadyDone; CookieInvalid; SignPhrase; Otherwise]
    = earlier ++ first_rule data msg :: later /\
    rule_holds data msg (first_rule data msg) = true /\
    Forall (fun r => rule_holds data msg r = false) earlier.
Proof.
  unfold first_rule. cbn [List.find].
  destruct (rule_holds data msg SuccessFlag) eqn:H1.
  { exists [], [RewardWord; AlreadyDone; CookieInvalid; SignPhrase; Otherwise].
    repeat split; auto. }
  destruct (rule_holds data msg RewardWord) eqn:H2.
  { exists [SuccessFlag], [AlreadyDone; CookieInvalid; SignPhrase; Otherwise].
    repeat split; auto. }
  destruct (rule_holds data msg AlreadyDone) eqn:H3.
  { exists [SuccessFlag; RewardWord], [CookieInvalid; SignPhrase; Otherwise].
    repeat split; auto. }
  destruct (rule_holds data msg CookieInvalid) eqn:H4.
  { exists [SuccessFlag; RewardWord; AlreadyDone], [SignPhrase; Otherwise].
    repeat split; auto. }
  destruct (rule_holds data msg SignPhrase) eqn:H5.
  { exists [SuccessFlag; RewardWord; AlreadyDone; CookieInvalid], [Otherwise].
    repeat split; auto 7. }
  exists [SuccessFlag; RewardWord; AlreadyDone; CookieInvalid; SignPhrase], [].
  repeat split; auto 8.
Qed.

Lemma rule_result_verdict data msg status :
  match first_rule data msg with
  | SuccessFlag =>
      r_success (rule_result data msg status SuccessFlag) = true /\
      r_already_signed (rule_result data msg status SuccessFlag) = false /\
      r_message (rule_result data msg status SuccessFlag) = msg /\
      (r_gain (rule_result data msg status SuccessFlag) <> None <->
       truthy (default (JNum 0) (get_default data "gain" (JNum 0))) = true)
  | RewardWord | SignPhrase =>
      rule_result data msg status (first_rule data msg) = signed_ok msg
  | AlreadyDone =>
      rule_result data msg status (first_rule data msg) = already_ok msg
  | CookieInvalid =>
      rule_result data msg status (first_rule data msg)
      = failed (JStr "Cookie已失效，请更新")
  | Otherwise =>
      rule_result data msg status (first_rule data msg)
      = failed (if truthy msg then msg
                else JStr ("未知响应: " +:+ str_of_int status))
  end.
Proof.
  destruct (first_rule data msg); try reflexivity.
  unfold rule_result. cbv zeta.
  destruct (truthy (default (JNum 0) (get_default data "gain" (JNum 0)))); simpl.
  - repeat split; auto; discriminate.
  - repeat split; auto; try discriminate; intros H; now contradiction H.
Qed.

Transparent String.eqb str_in.

(** C1.  For a body that parses as a JSON object, let [msg] be the value
    under [message] (the empty string when the key is absent).  When the
    success flag is strictly true, or [msg] is a string (or a list or a
    dict, on which the tests are defined too), the classifier gives the
    verdict of the first rule that holds, in the order: success flag
    strictly true; message contains the reward word; message contains the
    already-completed phrase; message equal to USER NOT FOUND or status
    equal to 404; message contains the sign-in word with the word for
    success or for completion; otherwise.  The first, second and fifth give
    success, the third already-signed, the fourth failure with the
    cookie-invalid message, the last failure with the message, or with the
    unknown-response text and the status code when the message is empty; the
    first rule carries gain and current when gain is truthy.  When the
    success flag is not true and [msg] is [None], a number or a boolean, or
    when the body is no object, a test raises and the verdict is the one of
    the raw-text fallback.  For the body [{"success": false, "message":
    null}] the table gives the failure of its last rule, with the text
    for an unknown response; the code gives success, because the raw text
    holds the key name [success]. *)
Theorem classifier_first_match :
  (forall (c : client) (E : fallback_env) (resp : response) (data msg : json),
     json_body resp = Some data ->
     message_of data = Some msg ->
     (exists earlier later,
        [SuccessFlag; RewardWord; AlreadyDone; CookieInvalid; SignPhrase; Otherwise]
        = earlier ++ first_rule data msg :: later /\
        rule_holds data msg (first_rule data msg) = true /\
        Forall (fun r => rule_holds data msg r = false) earlier) /\
     (rule_holds data msg SuccessFlag = true \/ searchable msg = true ->
      classify c E resp
      = rule_result data msg (status_code resp) (first_rule data msg) /\
      match first_rule data msg with
      | SuccessFlag =>
          r_success (classify c E resp) = true /\
          r_already_signed (classify c E resp) = false /\
          r_message (classify c E resp) = msg /\
          (r_gain (classify c E resp) <> None <->
           truthy (default (JNum 0) (get_default data "gain" (JNum 0))) = true)
      | RewardWord | SignPhrase => classify c E resp = signed_ok msg
      | AlreadyDone => classify c E resp = already_ok msg
      | CookieInvalid =>
          classify c E resp = failed (JStr "Cookie已失效，请更新")
      | Otherwise =>
          classify c E resp
          = failed (if truthy msg then msg
                    else JStr ("未知响应: " +:+ str_of_int (status_code resp)))
      end) /\
     (rule_holds data msg SuccessFlag = false -> searchable msg = false ->
      classify c E resp = non_json_fallback c E resp)) /\
  (forall (c : client) (E : fallback_env) (resp : response) (data : json),
     json_body resp = Some data ->
     message_of data = None ->
     classify c E resp = non_json_fallback c E resp) /\
  (json_body null_message
   = Some (JObj [("success", JBool false); ("message", JNull)]) /\
   message_of (JObj [("success", JBool false); ("message", JNull)]) = Some JNull /\
   first_rule (JObj [("success", JBool false); ("message", JNull)]) JNull
   = Otherwise /\
   rule_result (JObj [("success", JBool false); ("message", JNull)]) JNull 200
     Otherwise = failed (JStr "未知响应: 200") /\
   classify bare_client quiet_fallback null_message
   = signed_ok (JStr null_message_text) /\
   r_success (classify bare_client quiet_fallback null_message) = true).
Proof.
  split; [|split].
  - intros c E resp data msg Hbody Hmsg.
    split; [apply first_rule_is_first|]. split.
    + intros Hcase.
      assert (Hc : classify c E resp
                   = rule_result data msg (status_code resp) (first_rule data msg)).
      { unfold classify. rewrite Hbody. simpl.
        destruct Hcase as [Hflag|Hs].
        - now rewrite (classify_json_flag _ _ _ Hmsg Hflag).
        - now rewrite (classify_json_table _ _ _ Hmsg Hs). }
      split; [exact Hc|]. rewrite Hc.
      pose proof (rule_result_verdict data msg (status_code resp)) as Hv.
      destruct (first_rule data msg); exact Hv.
    + intros Hflag Hs. unfold classify. rewrite Hbody. simpl.
      now rewrite (classify_json_raises _ _ _ Hmsg Hflag Hs).
  - intros c E resp data Hbody Hmsg. unfold classify. rewrite Hbody. simpl.
    unfold classify_json. unfold message_of in Hmsg. now rewrite Hmsg.
  - repeat split; reflexivity.
Qed.

(** Scenario B goes through the third rule. *)
Lemma classifier_first_match_scenario_b :
  json_body scenario_b
    = Some (JObj [("success", JBool false); ("message", JStr scenario_b_message)]) /\
  first_rule (JObj [("success", JBool false); ("message", JStr scenario_b_message)])
    (JStr scenario_b_message) = AlreadyDone /\
  classify bare_client quiet_fallback scenario_b
    = already_ok (JStr scenario_b_message).
Proof.
  split; [reflexivity|]. split; [reflexivity|].
  exact (proj1 (proj1 (proj2 (proj1 classifier_first_match
                  bare_client quiet_fallback scenario_b
                  (JObj [("success", JBool false);
                         ("message", JStr scenario_b_message)])
                  (JStr scenario_b_message) eq_refl eq_refl))
                (or_intror eq_refl))).
Defined.

(** Scenario A: success, with the reward of 5. *)
Example scenario_a_success :
  classify bare_client quiet_fallback scenario_a
  = {| r_success := true; r_signed := true; r_already_signed := false;
       r_message := JStr ""; r_gain := Some (JNum 5);
       r_current := Some (JNum 120) |}.
Proof. reflexivity. Qed.

(** A success flag that is true decides whatever the message is. *)
Example null_message_with_success_flag :
  classify_json (JObj [("success", JBool true); ("message", JNull)]) 200
  = Some (signed_ok JNull).
Proof. reflexivity. Qed.

End ClassifierFacts.

(** ** The history ledger *)

Section HistoryFacts.
Import Py Time History.

Lemma record_date_wrong_type L r :
  record_date L r = WrongType <-> wrong_type r = true.
Proof.
  unfold record_date, wrong_type.
  destruct (date r) as [[| | |s| |]|]; try (split; [reflexivity|reflexivity]);
    try (split; discriminate).
  destruct (strptime L s); split; discriminate.
Qed.

(** Past records whose dates are strings or missing, the loop appends, in
    order, what [fate] leaves of each. *)
Lemma prune_loop_fates L E ret (history : list sign_entry) :
  Forall (fun r => wrong_type r = false) history ->
  forall (i : nat) (valid : list sign_entry),
    prune_loop L E ret i history valid
    = Some (valid ++ omap id (imap (fun j => fate L E ret (i + j)) history)).
Proof.
  induction 1 as [|r rest Hr _ IH]; intros i valid; simpl.
  - now rewrite app_nil_r.
  - assert (Hext : imap ((fun j => fate L E ret (i + j)) ∘ S) rest
                   = imap (fun j => fate L E ret (S i + j)) rest).
    { apply imap_ext. intros j x _. simpl. f_equal. lia. }
    rewrite Hext. unfold fate at 1. rewrite Nat.add_0_r.
    destruct (record_date L r) as [d| |] eqn:Hd.
    + rewrite IH. destruct (delta_days (now_prune E) d <? ret); simpl.
      * now rewrite <- app_assoc.
      * reflexivity.
    + rewrite IH. simpl. now rewrite <- app_assoc.
    + apply record_date_wrong_type in Hd. congruence.
Qed.

(** A date that is there and is not a string ends the loop. *)
Lemma prune_loop_wrong_type L E ret (history : list sign_entry) :
  Exists (fun r => wrong_type r = true) history ->
  forall (i : nat) (valid : list sign_entry),
    prune_loop L E ret i history valid = None.
Proof.
  induction 1 as [r rest Hr|r rest _ IH]; intros i valid; simpl.
  - apply (record_date_wrong_type L) in Hr. now rewrite Hr.
  - destruct (record_date L r); auto.
Qed.

Lemma fate_cases L E ret i r :
  (forall s d, date r = Some (JStr s) -> strptime L s = Some d ->
               (now_prune E - d) / 86400000000 < ret ->
               fate L E ret i r = Some r) /\
  (forall s d, date r = Some (JStr s) -> strptime L s = Some d ->
               ret <= (now_prune E - d) / 86400000000 ->
               fate L E ret i r = None) /\
  (date r = None \/ (exists s, date r = Some (JStr s) /\ strptime L s = None) ->
   fate L E ret i r = Some (set_date r (strftime L (now_repair E i)))).
Proof.
  unfold fate, record_date, delta_days.
  change US_PER_DAY with 86400000000.
  repeat split.
  - intros s d -> -> Hd. apply Z.ltb_lt in Hd. now rewrite Hd.
  - intros s d -> -> Hd. apply Z.ltb_ge in Hd. now rewrite Hd.
  - intros [-> | (s & -> & ->)]; reflexivity.
Qed.

(** C6.  When the store answers, [_save_sign_history(entry)] gives the
    entry a date if it has none (the current time) and appends it.  When
    every date of the list is a string or missing, it writes back, in one
    [save_data] on the key [sign_history], the records that remain, in
    their order: a record whose date parses is kept as it is when it lies
    less than [retention_days] whole days back ([retention_days] being 30
    when the setting is [None]) and dropped when it lies [retention_days]
    whole days back or more; a record whose date is missing or does not
    parse is kept with its date set to the current time.  When some record
    carries a date that is not a string, the [TypeError] of [strptime]
    passes the handler of the loop: nothing is written, the store is as it
    was, and the entry is lost. *)
Theorem save_sign_history_prunes
    (L : pylib) (E : save_env) (history_days : option Z)
    (st : store) (entry : sign_entry) :
  get_fault E = false ->
  save_fault E = false ->
  exists (dated : sign_entry),
    let history := default [] (sign_history st) ++ [dated] in
    let st' := (_save_sign_history L E history_days st entry).1 in
    let retention_days := match history_days with Some n => n | None => 30 end in
    (match date entry with
     | Some _ => dated = entry
     | None => dated = set_date entry (strftime L (now_default E))
     end) /\
    date dated <> None /\
    (Forall (fun r => wrong_type r = false) history ->
     exists (fates : list (option sign_entry)),
       length fates = length history /\
       sign_history st' = Some (omap id fates) /\
       (forall (i : nat) (r : sign_entry), history !! i = Some r ->
          (forall s d, date r = Some (JStr s) -> strptime L s = Some d ->
                       (now_prune E - d) / 86400000000 < retention_days ->
                       fates !! i = Some (Some r)) /\
          (forall s d, date r = Some (JStr s) -> strptime L s = Some d ->
                       retention_days <= (now_prune E - d) / 86400000000 ->
                       fates !! i = Some None) /\
          (date r = None \/
           (exists s, date r = Some (JStr s) /\ strptime L s = None) ->
           fates !! i
           = Some (Some (set_date r (strftime L (now_repair E i)))))) /\
       writes st' = writes st ++ ["sign_history"] /\
       last_sign_date st' = last_sign_date st /\
       last_attendance_record st' = last_attendance_record st) /\
    (Exists (fun r => wrong_type r = true) history -> st' = st).
Proof.
  intros Hget Hsave.
  set (dated := match date entry with
                | None => set_date entry (strftime L (now_default E))
                | Some _ => entry
                end).
  set (history := default [] (sign_history st) ++ [dated]).
  exists dated. cbv zeta. fold history.
  change (match history_days with Some n => n | None => 30 end)
    with (retention history_days).
  unfold _save_sign_history. rewrite Hget. fold dated. fold history.
  split; [subst dated; destruct (date entry); reflexivity|].
  split; [subst dated; destruct (date entry) eqn:Hd; simpl; congruence|].
  split.
  - intros Hstr.
    exists (imap (fate L E (retention history_days)) history).
    rewrite (prune_loop_fates L E _ history Hstr). rewrite Hsave. simpl.
    split; [apply length_imap|].
    split; [reflexivity|].
    split; [|auto].
    intros i r Hi.
    assert (Hf : imap (fate L E (retention history_days)) history !! i
                 = Some (fate L E (retention history_days) i r)).
    { rewrite list_lookup_imap, Hi. reflexivity. }
    rewrite Hf.
    destruct (fate_cases L E (retention history_days) i r) as (H1 & H2 & H3).
    repeat split.
    + intros s d Hs Hd Hlt. f_equal. eauto.
    + intros s d Hs Hd Hge. f_equal. eauto.
    + intros Hn. f_equal. eauto.
  - intros Hwrong. now rewrite (prune_loop_wrong_type L E _ history Hwrong).
Qed.

End HistoryFacts.

Section HistoryExamples.
Import Py Time History Cases.

(** On the stored history of the demonstration, yesterday's record stays,
    the one of March goes, the unreadable date is set to now, and the new
    entry is dated; on the history with a number for a date, the store is
    left as it was. *)
Lemma save_sign_history_prunes_demo :
  get_fault demo_save = false /\
  save_fault demo_save = false /\
  sign_history (_save_sign_history demo_lib demo_save (Some 30) demo_store
                  (demo_record None "已签到")).1
  = Some [demo_record (Some "2024-04-30 08:01:12") "签到成功";
          demo_record (Some "2024-05-01 08:00:00") "签到成功";
          demo_record (Some "2024-05-01 08:00:00") "已签到"] /\
  (_save_sign_history demo_lib demo_save (Some 30) number_dated_store
     (demo_record None "已签到")).1 = number_dated_store.
Proof.
  split; [reflexivity|]. split; [reflexivity|]. split.
  - destruct (save_sign_history_prunes demo_lib demo_save (Some 30) demo_store
                (demo_record None "已签到") eq_refl eq_refl)
      as (dated & Hdated & _ & Hgood & _).
    simpl in Hdated. subst dated.
    destruct Hgood as (fates & Hlen & Hsaved & Hfates & _).
    { repeat constructor. }
    rewrite Hsaved.
    destruct fates as [|f0 [|f1 [|f2 [|f3 [|f4 rest]]]]]; try discriminate Hlen.
    pose proof (proj1 (Hfates 0%nat _ eq_refl)
                  "2024-04-30 08:01:12" 1714464072000000 eq_refl eq_refl
                  ltac:(vm_compute; reflexivity)) as H0.
    pose proof (proj1 (proj2 (Hfates 1%nat _ eq_refl))
                  "2024-03-01 09:30:00" 1709285400000000 eq_refl eq_refl
                  ltac:(vm_compute; discriminate)) as H1.
    pose proof (proj2 (proj2 (Hfates 2%nat _ eq_refl))
                  (or_intror (ex_intro _ "yesterday" (conj eq_refl eq_refl))))
      as H2.
    pose proof (proj1 (Hfates 3%nat _ eq_refl)
                  "2024-05-01 08:00:00" 1714550400000000 eq_refl eq_refl
                  ltac:(vm_compute; reflexivity)) as H3.
    simpl in H0, H1, H2, H3.
    injection H0 as ->. injection H1 as ->. injection H2 as ->.
    injection H3 as ->. reflexivity.
  - destruct (save_sign_history_prunes demo_lib demo_save (Some 30)
                number_dated_store (demo_record None "已签到") eq_refl eq_refl)
      as (dated & _ & _ & _ & Hbad).
    apply Hbad. apply Exists_cons_hd. reflexivity.
Defined.

(** The same run, computed. *)
Example save_sign_history_demo :
  sign_history (_save_sign_history demo_lib demo_save (Some 30) demo_store
                  (demo_record None "已签到")).1
  = Some [demo_record (Some "2024-04-30 08:01:12") "签到成功";
          demo_record (Some "2024-05-01 08:00:00") "签到成功";
          demo_record (Some "2024-05-01 08:00:00") "已签到"].
Proof. vm_compute. reflexivity. Qed.

(** A record of exactly thirty days ago is dropped, one a second younger
    is kept. *)
Example retention_boundary :
  sign_history
    (_save_sign_history demo_lib demo_save (Some 30)
       {| sign_history := Some [demo_record (Some "2024-04-01 08:00:00") "签到成功";
                                demo_record (Some "2024-04-01 08:00:01") "签到成功"];
          last_sign_date := None; last_attendance_record := JNull;
          writes := [] |}
       (demo_record (Some "2024-05-01 08:00:00") "已签到")).1
  = Some [demo_record (Some "2024-04-01 08:00:01") "签到成功";
          demo_record (Some "2024-05-01 08:00:00") "已签到"].
Proof. vm_compute. reflexivity. Qed.

Example ref_strptime_epoch :
  ref_strptime "2024-05-01 00:10:00" = Some 1714522200000000.
Proof. reflexivity. Qed.

Example ref_fromisoformat_utc :
  ref_fromisoformat (replace_Z "2024-04-30T16:10:00.000Z")
  = Some {| wall := 1714493400000000; utcoffset := Some 0 |}.
Proof. reflexivity. Qed.

End HistoryExamples.

(** ** The attendance record and its cache *)

Section AttendanceFacts.
Import Py Proxies Time Transport History Attendance Cases.

Lemma cached_is_of_today_spec L E cached :
  cached_is_of_today L E cached = true <->
  truthy cached = true /\
  cached_shanghai_date L cached = Some ((now_instant E + SHANGHAI) / US_PER_DAY).
Proof.
  unfold cached_is_of_today, cached_shanghai_date.
  destruct (truthy cached); simpl; [|intuition discriminate].
  destruct (get cached "created_at") as [[| | |s| |]|]; simpl;
    try (intuition discriminate).
  destruct (String.eqb s ""); simpl; [intuition discriminate|].
  destruct (fromisoformat L (replace_Z s)) as [d|]; simpl;
    [|intuition discriminate].
  rewrite Z.eqb_eq. split.
  - intros ->. auto.
  - intros [_ [= ->]]. reflexivity.
Qed.

(** C10.  When the answer of the attendance board parses neither directly
    nor after the Brotli handling, [_fetch_attendance_record] returns the
    cached [last_attendance_record] when that record is there, has a
    [created_at] string that parses, and its time, moved to Asia/Shanghai,
    lies on the current Asia/Shanghai date (and the store answers); in every
    other case it returns the empty record. *)
Theorem stale_cache_is_not_returned
    (L : pylib) (E : fetch_env) (c : client) (net : network)
    (use_proxy : bool) (settings_PROXY : json) (st : store) (resp : response) :
  (_smart_get c net (ApiSign._get_proxies use_proxy settings_PROXY)).1.1
    = Returned resp ->
  json_body resp = None ->
  json_loads L (response_text E resp) = None ->
  let record :=
    (_fetch_attendance_record L E c net use_proxy settings_PROXY st).1.1 in
  let cached := last_attendance_record st in
  let fresh :=
    truthy cached = true /\
    cached_shanghai_date L cached
      = Some ((now_instant E + SHANGHAI) / US_PER_DAY) /\
    save_response_fault E = false /\ get_cached_fault E = false in
  (fresh -> record = cached) /\ (~ fresh -> record = JObj []).
Proof.
  intros Hresp Hjson Hloads. cbv zeta.
  unfold _fetch_attendance_record.
  destruct (_smart_get c net _) as [[o tr] c'] eqn:Hget. simpl in Hresp.
  subst o. rewrite Hjson, Hloads. simpl.
  unfold unparsed_fallback.
  destruct (save_response_fault E) eqn:Hs; simpl.
  { split; [intros (_ & _ & [=] & _) | reflexivity]. }
  destruct (get_cached_fault E) eqn:Hg; simpl.
  { split; [intros (_ & _ & _ & [=]) | reflexivity]. }
  unfold or_else.
  destruct (truthy (last_attendance_record st)) eqn:Ht.
  - destruct (cached_is_of_today L E (last_attendance_record st)) eqn:Hc; simpl.
    + split; [reflexivity|]. intros Hn. exfalso. apply Hn.
      apply cached_is_of_today_spec in Hc as [_ Hd]. auto.
    + split; [|reflexivity]. intros (_ & Hd & _).
      assert (cached_is_of_today L E (last_attendance_record st) = true)
        by (apply cached_is_of_today_spec; auto).
      congruence.
  - replace (cached_is_of_today L E (JObj [])) with false by reflexivity.
    simpl. split; [intros ([=] & _) | reflexivity].
Qed.

(** On 2024-05-01 the record cached on that Shanghai day is returned. *)
Lemma stale_cache_is_not_returned_demo :
  (_smart_get bare_client answers_html (ApiSign._get_proxies false JNull)).1.1
    = Returned html_answer /\
  json_body html_answer = None /\
  json_loads demo_lib (response_text (demo_fetch demo_now) html_answer) = None /\
  (_fetch_attendance_record demo_lib (demo_fetch demo_now) bare_client
     answers_html false JNull demo_store).1.1
  = last_attendance_record demo_store.
Proof.
  split; [reflexivity|]. split; [reflexivity|]. split; [reflexivity|].
  apply (stale_cache_is_not_returned demo_lib (demo_fetch demo_now) bare_client
           answers_html false JNull demo_store html_answer eq_refl eq_refl eq_refl).
  repeat split; reflexivity.
Defined.

(** A day later the same cache is stale and the empty record comes back. *)
Example stale_cache_next_day :
  (_fetch_attendance_record demo_lib (demo_fetch demo_now_next_day) bare_client
     answers_html false JNull demo_store).1.1 = JObj [].
Proof. vm_compute. reflexivity. Qed.

End AttendanceFacts.

(** ** Statistics *)

Section StatsFacts.
Import Py Time History Stats Cases.

Lemma newest_first_app_r L l1 l2 :
  newest_first L (l1 ++ l2) -> newest_first L l2.
Proof. induction l1 as [|a l1 IH]; simpl; [auto | intros [_ H]; auto]. Qed.

Lemma newest_first_later L (l1 l2 : list row) r r' t t' :
  newest_first L (l1 ++ l2) -> r ∈ l1 -> r' ∈ l2 ->
  row_time L (timestamp r) = Some t -> row_time L (timestamp r') = Some t' ->
  t' <= t.
Proof.
  induction l1 as [|a l1 IH]; simpl; intros Hs Hr Hr' Ht Ht'.
  - now apply elem_of_nil in Hr.
  - destruct Hs as [Hall Hs]. apply elem_of_cons in Hr as [->|Hr].
    + rewrite Forall_forall in Hall. apply (Hall r'); auto.
      apply elem_of_app. now right.
    + now apply IH.
Qed.

(** Rows that are all older than the window contribute nothing. *)
Lemma filter_counted_older L start (l : list row) :
  Forall (fun r => in_window L start r = false) l ->
  filter (fun r => counted L start r = true) l = [].
Proof.
  induction 1 as [|r l Hr _ IH]; [reflexivity|].
  rewrite filter_cons_False; [exact IH|].
  unfold counted. rewrite Hr. discriminate.
Qed.

Lemma filter_counted_window L start (l : list row) :
  filter (fun r => counted L start r = true)
    (filter (fun r => in_window L start r = true) l)
  = filter (fun r => counted L start r = true) l.
Proof.
  apply list_filter_filter_l. intros r. unfold counted.
  destruct (in_window L start r); [reflexivity | discriminate].
Qed.

(** The loop over the pages, on a ledger that is served page by page:
    what counts of the rows collected is what counts of the whole ledger. *)
Lemma paginate_collects L E start (pages : list (list row)) :
  forall (fuel k : nat) (acc : list row),
    (forall j, ledger E (k + j)%nat = PageData true (default [] (pages !! j))) ->
    (length pages <= fuel)%nat ->
    Forall (fun p => p <> []) pages ->
    Forall (fun r => is_Some (row_time L (timestamp r))) (concat pages) ->
    newest_first L (concat pages) ->
    filter (fun r => counted L start r = true) (paginate L E start fuel k acc)
    = filter (fun r => counted L start r = true) acc
      ++ filter (fun r => counted L start r = true) (concat pages).
Proof.
  induction pages as [|rows rest IH]; intros fuel k acc Hserve Hlen Hne Hparse Hsorted.
  - simpl. rewrite app_nil_r. destruct fuel as [|fuel]; [reflexivity|].
    simpl. specialize (Hserve 0%nat). rewrite Nat.add_0_r in Hserve.
    now rewrite Hserve.
  - destruct fuel as [|fuel]; [simpl in Hlen; lia|].
    simpl in Hlen. simpl paginate.
    pose proof (Hserve 0%nat) as H0. rewrite Nat.add_0_r in H0. rewrite H0.
    simpl default. inversion Hne as [|? ? Hrows Hne']; subst.
    simpl in Hparse, Hsorted. apply Forall_app in Hparse as [Hp1 Hp2].
    assert (Hnn : match rows with [] => true | _ :: _ => false end = false)
      by (destruct rows; congruence).
    rewrite Hnn. cbn [negb orb].
    destruct (proj2 (last_is_Some rows) Hrows) as [rl Hl]. rewrite Hl.
    assert (Hin : rl ∈ rows) by (now apply last_Some_elem_of).
    rewrite Forall_forall in Hp1.
    destruct (Hp1 rl Hin) as [tl Htl].
    simpl mbind. rewrite Htl.
    destruct (tl <? start) eqn:Hcmp.
    + apply Z.ltb_lt in Hcmp. cbn [concat].
      rewrite !filter_app, filter_counted_window.
      rewrite (filter_counted_older L start (concat rest));
        [now rewrite app_nil_r|].
      rewrite Forall_forall. intros r' Hr'. unfold in_window.
      rewrite Forall_forall in Hp2. destruct (Hp2 r' Hr') as [t' Ht'].
      rewrite Ht'. apply Z.leb_gt.
      pose proof (newest_first_later L rows (concat rest) rl r' tl t'
                    Hsorted Hin Hr' Htl Ht'). lia.
    + rewrite (IH fuel (S k) (acc ++ rows)).
      * cbn [concat]. now rewrite !filter_app, app_assoc.
      * intros j. replace (S k + j)%nat with (k + S j)%nat by lia.
        now rewrite Hserve.
      * lia.
      * exact Hne'.
      * exact Hp2.
      * now apply newest_first_app_r in Hsorted.
Qed.

Lemma Qplus_inject_Z (a b : Z) : (inject_Z a + inject_Z b)%Q = inject_Z (a + b).
Proof. unfold Qplus, inject_Z. simpl. f_equal. lia. Qed.

(** The records built from the rows collected are those of the rows that
    count, with their amounts. *)
Lemma signin_records_amounts L start (l : list row) :
  map sr_amount (signin_records_of L start l)
  = map (fun r => inject_Z (amount r))
      (filter (fun r => counted L start r = true) l).
Proof.
  induction l as [|r l IH]; [reflexivity|].
  simpl signin_records_of.
  destruct (counted L start r) eqn:Hc.
  - rewrite filter_cons_True by exact Hc.
    unfold counted, in_window in Hc.
    destruct (row_time L (timestamp r)) as [t|]; [|discriminate].
    rewrite Hc. simpl. now rewrite IH.
  - rewrite filter_cons_False by (rewrite Hc; discriminate).
    unfold counted, in_window in Hc.
    destruct (row_time L (timestamp r)) as [t|]; [rewrite Hc|]; exact IH.
Qed.

Lemma fold_amounts (rs : list stat_record) (zs : list Z) (z0 : Z) :
  map sr_amount rs = map inject_Z zs ->
  fold_left (fun acc r => (acc + sr_amount r)%Q) rs (inject_Z z0)
  = inject_Z (z0 + foldr Z.add 0 zs).
Proof.
  revert zs z0. induction rs as [|r rs IH]; intros [|z zs] z0; simpl;
    try discriminate.
  - intros _. f_equal. lia.
  - intros [= Hr Hrs]. rewrite Hr, Qplus_inject_Z, (IH zs _ Hrs).
    f_equal. lia.
Qed.

Lemma foldr_add_perm (l l' : list Z) :
  l ≡ₚ l' -> foldr Z.add 0 l = foldr Z.add 0 l'.
Proof. induction 1; simpl; lia. Qed.

(** C8.  With a cookie configured and [days = 7], against a ledger of at
    most twenty pages, served page by page and listed newest first with
    time stamps that parse, in which the rows that match the sign-in reward
    description inside the window carry the amounts 1, 2 and 3:
    [_get_signin_stats] returns a total of 6, a count of 3 and an average of
    2.0, the average being the total divided by the count, rounded to two
    decimals. *)
Theorem signin_stats_scenario
    (L : pylib) (pages : list (list row)) (now : Z) (st : store)
    (cookie : string) (fault : bool) :
  cookie <> "" ->
  (length pages <= 20)%nat ->
  Forall (fun p => p <> []) pages ->
  Forall (fun r => is_Some (row_time L (timestamp r))) (concat pages) ->
  newest_first L (concat pages) ->
  map amount (filter (fun r => counted L (now - 7 * US_PER_DAY) r = true)
                (concat pages)) ≡ₚ [1; 2; 3] ->
  exists s,
    _get_signin_stats L
      {| ledger := serve pages; now_shanghai := now; get_history_fault := fault |}
      cookie st 7 = Some s /\
    total_amount s = 6%Q /\
    days_count s = 3%nat /\
    average s = 2%Q /\
    average s
      = round2 (total_amount s / inject_Z (Z.of_nat (days_count s))) /\
    length (records s) = 3%nat /\
    period s = "近7天".
Proof.
  intros Hcookie Hlen Hne Hparse Hsorted Hamounts.
  unfold _get_signin_stats.
  destruct (String.eqb_spec cookie "") as [->|_]; [contradiction|].
  change (if 7 <=? 0 then 1 else 7) with 7.
  set (E := {| ledger := serve pages; now_shanghai := now;
               get_history_fault := fault |}).
  change (now_shanghai E) with now.
  set (start := now - 7 * US_PER_DAY) in *.
  set (all_records := paginate L E start 20 1 []).
  assert (Hcol : filter (fun r => counted L start r = true) all_records
                 = filter (fun r => counted L start r = true) (concat pages)).
  { subst all_records.
    rewrite (paginate_collects L E start pages 20 1 []); auto. }
  pose proof (signin_records_amounts L start all_records) as Hrec.
  rewrite Hcol in Hrec.
  set (rs := signin_records_of L start all_records) in *.
  set (zs := map amount (filter (fun r => counted L start r = true) (concat pages))) in *.
  assert (Hrec' : map sr_amount rs = map inject_Z zs).
  { rewrite Hrec. subst zs. now rewrite map_map. }
  assert (Hn : length rs = 3%nat).
  { rewrite <- (length_map sr_amount), Hrec', length_map.
    now rewrite (Permutation_length Hamounts). }
  assert (Hsum : sum_amounts rs = 6%Q).
  { unfold sum_amounts. change 0%Q with (inject_Z 0).
    rewrite (fold_amounts rs zs 0 Hrec'), (foldr_add_perm _ _ Hamounts).
    reflexivity. }
  destruct rs as [|r1 rs'] eqn:Hrs; [discriminate|]. rewrite <- Hrs in *.
  exists (summarise 7 rs). split; [reflexivity|].
  unfold summarise. simpl. rewrite Hsum, Hn.
  repeat split; reflexivity.
Qed.

(** Scenario E on the ledger of the demonstration. *)
Lemma signin_stats_scenario_demo :
  exists s,
    _get_signin_stats demo_lib demo_stats_env "session=abc" demo_store 7 = Some s /\
    total_amount s = 6%Q /\
    days_count s = 3%nat /\
    average s = 2%Q /\
    average s
      = round2 (total_amount s / inject_Z (Z.of_nat (days_count s))) /\
    length (records s) = 3%nat /\
    period s = "近7天".
Proof.
  apply (signin_stats_scenario demo_lib demo_ledger (demo_now - SHANGHAI)
           demo_store "session=abc" false).
  - discriminate.
  - simpl. lia.
  - repeat constructor; discriminate.
  - repeat constructor; eexists; vm_compute; reflexivity.
  - simpl. repeat split; repeat constructor;
      intros t t' H1 H2; vm_compute in H1, H2;
      injection H1 as <-; injection H2 as <-; lia.
  - replace (map amount _) with [3; 2; 1] by (vm_compute; reflexivity).
    apply (Permutation_rev [3; 2; 1]).
Defined.

Example signin_stats_demo_records :
  records <$> _get_signin_stats demo_lib demo_stats_env "session=abc" demo_store 7
  = Some [{| sr_amount := 3; sr_date := "2024-05-01";
             sr_description := "签到收益3个鸡腿" |};
          {| sr_amount := 2; sr_date := "2024-04-29";
             sr_description := "签到收益2个鸡腿" |};
          {| sr_amount := 1; sr_date := "2024-04-28";
             sr_description := "签到收益1个鸡腿" |}].
Proof. vm_compute. reflexivity. Qed.

(** Without a cookie no request is made and the empty dict comes back. *)
Example signin_stats_without_cookie :
  _get_signin_stats demo_lib demo_stats_env "" demo_store 7 = None.
Proof. reflexivity. Qed.

End StatsFacts.

(** ** The entry point *)

Section SignFacts.
Import Py Time History ApiSign Sign Cases.

Ltac run_flow :=
  unfold sign, main_flow, handler, schedule_retry, notify, notify_success,
    post_message, refresh_stats, _save_last_sign_date, save_sign_history,
    bind, ret, raise, read, update, emit.

Ltac flow_cases :=
  repeat (simpl;
          match goal with
          | |- context [_save_sign_history ?a ?b ?c ?d ?e] =>
              destruct (_save_sign_history a b c d e) as [? ?]
          | |- context [has_job ?a ?b] => destruct (has_job a b) eqn:?
          | |- context [match ?x with _ => _ end] =>
              match type of x with
              | option _ => destruct x eqn:?
              | sum _ _ => destruct x eqn:?
              | bool => destruct x eqn:?
              end
          | |- context [if ?x then _ else _] => destruct x eqn:?
          end);
  simpl.

Lemma sign_scheduler_effect (L : pylib) (E : sign_env) (p : plugin) :
  let '(p', evs, _) := sign L E p in
  (_scheduler p' = _scheduler p /\ _scheduled_retry p' = _scheduled_retry p /\
   job_events evs = [])
  \/
  (_scheduled_retry p' = Some (retry_id (time_time E)) /\
   match add_job (retry_job E) (without_pending_retry p) with
   | Some s2 =>
       _scheduler p' = Some s2 /\
       job_events evs
       = match pending_retry p with Some id => [RemoveJob id] | None => [] end
         ++ [AddJob (retry_id (time_time E))]
   | None =>
       _scheduler p' = Some (without_pending_retry p) /\
       job_events evs
       = match pending_retry p with Some id => [RemoveJob id] | None => [] end
   end).
Proof.
  run_flow.
  destruct p as [cookie ntf hd mr rc sr sch st].
  unfold without_pending_retry, pending_retry, scheduler_in_use, retry_job.
  unfold remove_job.
  destruct sch as [sc|], sr as [id|]; simpl.
  all: flow_cases.
  all: try (left; repeat split; reflexivity).
  all: simplify_eq/=.
  all: right; repeat split; solve [reflexivity | congruence].
Qed.

Lemma has_job_In id s :
  has_job id s = true <-> exists j, In j (jobs s) /\ job_id j = id.
Proof.
  unfold has_job. rewrite existsb_exists. split.
  - intros (j & Hj & He). apply String.eqb_eq in He. eauto.
  - intros (j & Hj & He). exists j. split; [exact Hj|]. now apply String.eqb_eq.
Qed.

Lemma NoDup_filter_ids (f : job -> bool) (l : list job) :
  NoDup (map job_id l) -> NoDup (map job_id (List.filter f l)).
Proof.
  induction l as [|j l IH]; simpl; [auto|].
  intros Hnd. apply NoDup_cons in Hnd as [Hnot Hnd].
  destruct (f j); simpl; [|auto].
  apply NoDup_cons. split; [|auto].
  intros Hin. apply Hnot.
  apply list_elem_of_In in Hin. apply list_elem_of_In.
  apply in_map_iff in Hin as (j' & He & Hj').
  apply in_map_iff. exists j'. split; [exact He|].
  apply filter_In in Hj'. tauto.
Qed.

Lemma retry_id_is_retry t : is_retry_id (retry_id t) = true.
Proof.
  unfold is_retry_id, retry_id. simpl. now destruct (str_of_int t).
Qed.

(** With the invariant, the store without the remembered retry holds no
    retry at all, and its ids are still unique. *)
Lemma without_pending_retry_clean p :
  retry_invariant p ->
  NoDup (map job_id (jobs (without_pending_retry p))) /\
  (forall j, In j (jobs (without_pending_retry p)) ->
             is_retry_id (job_id j) = false) /\
  (forall j, In j (jobs (without_pending_retry p)) -> In j (pending p)).
Proof.
  intros [Hnd Hinv].
  assert (Hjobs : jobs (scheduler_in_use p) = pending p).
  { unfold scheduler_in_use, pending. now destruct (_scheduler p). }
  unfold without_pending_retry.
  destruct (pending_retry p) as [id|] eqn:Hp.
  - unfold pending_retry in Hp.
    destruct (_scheduled_retry p) as [id'|] eqn:Hs; [|discriminate].
    destruct (negb (String.eqb id' "") && has_job id' (scheduler_in_use p))%bool
      eqn:Hc; [|discriminate].
    injection Hp as ->. apply andb_true_iff in Hc as [_ Hhas].
    unfold remove_job. rewrite Hhas. simpl. rewrite Hjobs.
    split; [now apply NoDup_filter_ids|]. split.
    + intros j Hj. apply filter_In in Hj as [Hj Hne].
      destruct (is_retry_id (job_id j)) eqn:Hr; [|reflexivity].
      specialize (Hinv j Hj Hr). injection Hinv as ->.
      rewrite String.eqb_refl in Hne. discriminate.
    + intros j Hj. now apply filter_In in Hj as [Hj _].
  - rewrite Hjobs. split; [exact Hnd|]. split; [|auto].
    intros j Hj. destruct (is_retry_id (job_id j)) eqn:Hr; [|reflexivity].
    specialize (Hinv j Hj Hr). unfold pending_retry in Hp. rewrite Hinv in Hp.
    assert (Hhas : has_job (job_id j) (scheduler_in_use p) = true).
    { apply has_job_In. exists j. rewrite Hjobs. auto. }
    rewrite Hhas in Hp.
    destruct (String.eqb_spec (job_id j) "") as [He|_]; [|discriminate].
    rewrite He in Hr. discriminate.
Qed.

Lemma sign_keeps_invariant L E p :
  retry_invariant p -> retry_invariant (sign L E p).1.1.
Proof.
  intros Hinv. pose proof (sign_scheduler_effect L E p) as Heff.
  destruct (sign L E p) as [[p' evs] r]. simpl.
  destruct Heff as [(Hs & Hr & _)|(Hr & Hadd)].
  - unfold retry_invariant, pending in *. rewrite Hs, Hr. exact Hinv.
  - destruct (without_pending_retry_clean p Hinv) as (Hnd & Hclean & _).
    destruct (add_job (retry_job E) (without_pending_retry p)) as [s2|] eqn:Ha.
    + destruct Hadd as [Hs _]. unfold add_job in Ha.
      destruct (has_job _ _) eqn:Hhas; [discriminate|]. injection Ha as <-.
      unfold retry_invariant, pending. rewrite Hs, Hr. simpl. split.
      * rewrite map_app. simpl. apply NoDup_app. split; [exact Hnd|].
        split; [|apply NoDup_singleton].
        intros x Hx Hx'. apply list_elem_of_In in Hx.
        apply list_elem_of_singleton in Hx'. subst x.
        apply in_map_iff in Hx as (j & He & Hj).
        assert (has_job (job_id (retry_job E)) (without_pending_retry p) = true)
          by (apply has_job_In; eauto).
        congruence.
      * intros j Hj Hret. apply in_app_iff in Hj as [Hj|[<-|[]]].
        -- rewrite (Hclean j Hj) in Hret. discriminate.
        -- reflexivity.
    + destruct Hadd as [Hs _].
      unfold retry_invariant, pending. rewrite Hs, Hr. split; [exact Hnd|].
      intros j Hj Hret. rewrite (Hclean j Hj) in Hret. discriminate.
Qed.

Lemma reachable_invariant p : reachable p -> retry_invariant p.
Proof.
  induction 1 as [p Hs Hr|p p' _ IH Hstep].
  - unfold retry_invariant, pending. rewrite Hs. split; [constructor|].
    intros j [].
  - destruct Hstep as [L E p|id p|p|cfg auto_id run_at p Hauto].
    + now apply sign_keeps_invariant.
    + destruct IH as [Hnd Hinv]. unfold job_fired.
      destruct (_scheduler p) as [s|] eqn:Hs; [|split; assumption].
      unfold retry_invariant, pending in *. rewrite Hs in *. simpl. split.
      * now apply NoDup_filter_ids.
      * intros j Hj. apply filter_In in Hj as [Hj _]. auto.
    + unfold stop_service. destruct (_scheduler p) eqn:Hs; [|exact IH].
      unfold retry_invariant, pending. simpl. split; [constructor|].
      intros j [].
    + assert (Hstop : retry_invariant (stop_service p)).
      { unfold stop_service. destruct (_scheduler p) eqn:Hs; [|exact IH].
        unfold retry_invariant, pending. simpl. split; [constructor|].
        intros j []. }
      unfold init_plugin. destruct cfg as [c|]; [|exact Hstop].
      unfold retry_invariant, pending in *. simpl.
      destruct (cfg_onlyonce c); [|exact Hstop]. simpl. split.
      * repeat constructor. intros Hin. now apply elem_of_nil in Hin.
      * intros j [<-|[]] Hret. simpl in Hret. congruence.
Qed.

Lemma invariant_at_most_one p :
  retry_invariant p -> (length (retry_jobs p) <= 1)%nat.
Proof.
  intros [Hnd Hinv]. unfold retry_jobs.
  assert (Hnd' := NoDup_filter_ids (fun j => is_retry_id (job_id j)) _ Hnd).
  assert (Hall : forall j, In j (List.filter (fun j => is_retry_id (job_id j)) (pending p))
                           -> _scheduled_retry p = Some (job_id j)).
  { intros j Hj. apply filter_In in Hj as [Hj Hr]. auto. }
  destruct (List.filter _ (pending p)) as [|j1 [|j2 rest]]; simpl; try lia.
  exfalso.
  pose proof (Hall j1 (or_introl eq_refl)) as H1.
  pose proof (Hall j2 (or_intror (or_introl eq_refl))) as H2.
  rewrite H1 in H2. injection H2 as He.
  simpl in Hnd'. apply NoDup_cons in Hnd' as [Hnot _].
  apply Hnot. rewrite He. apply elem_of_cons. now left.
Qed.

Lemma filter_single {A} (f : A -> bool) (l : list A) b :
  List.filter f l = [b] -> exists l2 l3, l = l2 ++ b :: l3.
Proof.
  induction l as [|x l IH]; simpl; [discriminate|].
  destruct (f x).
  - intros [= -> _]. now exists [], l.
  - intros H. destruct (IH H) as (l2 & l3 & ->). now exists (x :: l2), l3.
Qed.

Lemma filter_pair {A} (f : A -> bool) (l : list A) a b :
  List.filter f l = [a; b] -> exists l1 l2 l3, l = l1 ++ a :: l2 ++ b :: l3.
Proof.
  induction l as [|x l IH]; simpl; [discriminate|].
  destruct (f x).
  - intros [= -> H]. destruct (filter_single f l b H) as (l2 & l3 & ->).
    now exists [], l2, l3.
  - intros H. destruct (IH H) as (l1 & l2 & l3 & ->).
    now exists (x :: l1), l2, l3.
Qed.

(** C5.  In every state the instance can reach there is at most one retry
    job in the scheduler, before and after a sign-in.  When a sign-in
    schedules a retry, the job added is the one named after the current
    time, it is afterwards the only retry job in the store, and a retry job
    that was pending before has been removed before the new one was
    added. *)
Theorem single_pending_retry (L : pylib) (E : sign_env) (p : plugin) :
  reachable p ->
  (length (retry_jobs p) <= 1)%nat /\
  reachable (sign L E p).1.1 /\
  (length (retry_jobs (sign L E p).1.1) <= 1)%nat /\
  forall id, In (AddJob id) (sign L E p).1.2 ->
    id = retry_id (time_time E) /\
    map job_id (retry_jobs (sign L E p).1.1) = [id] /\
    forall j, In j (retry_jobs p) ->
      exists before between after,
        (sign L E p).1.2
        = before ++ RemoveJob (job_id j) :: between ++ AddJob id :: after.
Proof.
  intros Hreach.
  assert (Hinv := reachable_invariant p Hreach).
  assert (Hreach' : reachable (sign L E p).1.1)
    by (eapply reach_step; [exact Hreach | constructor]).
  split; [now apply invariant_at_most_one|].
  split; [exact Hreach'|].
  split; [apply invariant_at_most_one; now apply reachable_invariant|].
  intros id Hid.
  pose proof (sign_scheduler_effect L E p) as Heff.
  destruct (sign L E p) as [[p' evs] r]. simpl in *.
  assert (Hjob : In (AddJob id) (job_events evs))
    by (apply filter_In; split; [exact Hid | reflexivity]).
  destruct (without_pending_retry_clean p Hinv) as (Hnd & Hclean & Hsub).
  destruct Heff as [(_ & _ & Hnone)|(Hr & Hadd)].
  { rewrite Hnone in Hjob. destruct Hjob. }
  destruct (add_job (retry_job E) (without_pending_retry p)) as [s2|] eqn:Ha.
  - destruct Hadd as [Hs Hev].
    assert (Hid' : id = retry_id (time_time E)).
    { rewrite Hev in Hjob. apply in_app_iff in Hjob as [Hjob|[[= <-]|[]]];
        [|reflexivity].
      destruct (pending_retry p); [destruct Hjob as [[=]|[]] | destruct Hjob]. }
    subst id. split; [reflexivity|].
    unfold add_job in Ha. destruct (has_job _ _); [discriminate|].
    injection Ha as <-. split.
    + unfold retry_jobs, pending. rewrite Hs. simpl.
      rewrite List.filter_app. simpl.
      change (job_id (retry_job E)) with (retry_id (time_time E)).
      rewrite retry_id_is_retry. simpl.
      assert (Hno : List.filter (fun j => is_retry_id (job_id j))
                      (jobs (without_pending_retry p)) = []).
      { destruct (List.filter _ _) as [|j rest] eqn:Hf; [reflexivity|].
        assert (Hj : In j (List.filter (fun j => is_retry_id (job_id j))
                             (jobs (without_pending_retry p))))
          by (rewrite Hf; now left).
        apply filter_In in Hj as [Hj Hret].
        rewrite (Hclean j Hj) in Hret. discriminate. }
      rewrite Hno. reflexivity.
    + intros j Hj. apply filter_In in Hj as [Hj Hret].
      destruct Hinv as [_ Hinv]. specialize (Hinv j Hj Hret).
      assert (Hp : pending_retry p = Some (job_id j)).
      { unfold pending_retry. rewrite Hinv.
        assert (Hhas : has_job (job_id j) (scheduler_in_use p) = true).
        { apply has_job_In. exists j. split; [|reflexivity].
          unfold scheduler_in_use, pending in *.
          destruct (_scheduler p); [exact Hj | destruct Hj]. }
        rewrite Hhas.
        destruct (String.eqb_spec (job_id j) "") as [He|_]; [|reflexivity].
        rewrite He in Hret. discriminate. }
      rewrite Hp in Hev. simpl in Hev.
      now apply filter_pair in Hev.
  - destruct Hadd as [_ Hev]. rewrite Hev in Hjob.
    destruct (pending_retry p); [destruct Hjob as [[=]|[]] | destruct Hjob].
Qed.

(** Two failed sign-ins in a row: the second removes the retry of the
    first and leaves its own. *)
Lemma single_pending_retry_demo :
  reachable after_first_run /\
  map job_id (retry_jobs (sign demo_lib second_run after_first_run).1.1)
  = [retry_id 1714522200].
Proof.
  assert (Hreach : reachable after_first_run).
  { eapply reach_step; [|apply (step_sign demo_lib first_run (demo_plugin 3))].
    apply reach_fresh; reflexivity. }
  split; [exact Hreach|].
  destruct (single_pending_retry demo_lib second_run after_first_run Hreach)
    as (_ & _ & _ & H).
  destruct (H (retry_id 1714522200)) as (_ & Hjobs & _).
  - vm_compute. right. right. left. reflexivity.
  - exact Hjobs.
Defined.

Example second_run_events :
  job_events (sign demo_lib second_run after_first_run).1.2
  = [RemoveJob "nodeseek_retry_1714521600"; AddJob "nodeseek_retry_1714522200"].
Proof. vm_compute. reflexivity. Qed.

Lemma reconcile_spec (L : pylib) (E : sign_env) (att : option json) :
  match reconcile L E att with
  | ConfirmedByRecord =>
      exists dt, record_timestamp L att = Some dt /\
                 date_of dt = today E / US_PER_DAY
  | TimeWindow =>
      exists dt, record_timestamp L att = Some dt /\
                 date_of dt <> today E / US_PER_DAY /\
                 Z.abs (utcnow E - wall dt) < HALF_HOUR
  | Unchanged =>
      forall dt, record_timestamp L att = Some dt ->
                 date_of dt <> today E / US_PER_DAY /\
                 HALF_HOUR <= Z.abs (utcnow E - wall dt)
  end.
Proof.
  unfold reconcile, record_timestamp.
  destruct att as [[|b|q|s|l|kvs]|]; simpl; try discriminate.
  { destruct b; simpl; discriminate. }
  { destruct (Qeq_bool q 0); simpl; discriminate. }
  { destruct (String.eqb s ""); simpl; discriminate. }
  { destruct l; simpl; discriminate. }
  destruct kvs as [|kv rest]; [simpl; discriminate|].
  cbn [truthy]. cbv iota.
  unfold get, get_default. cbn [default from_option id].
  destruct (assoc "created_at" (kv :: rest)) as [[| | |s| |]|]; simpl;
    try discriminate.
  destruct (String.eqb s ""); [discriminate|].
  destruct (fromisoformat L (replace_Z s)) as [dt|]; [|discriminate].
  destruct (Z.eqb_spec (date_of dt) (today E / US_PER_DAY)) as [Hd|Hd].
  - eauto.
  - destruct (Z.ltb_spec (Z.abs (utcnow E - wall dt)) HALF_HOUR).
    + exists dt. auto.
    + intros dt' [= <-]. auto.
Qed.

Lemma with_reward_status d r a d' :
  with_reward d r a = inl d' -> status d' = status d.
Proof.
  unfold with_reward.
  assert (Hfrom : status (match r_gain r with
                          | Some g =>
                              if truthy g
                              then {| date := date d; status := status d;
                                      message := message d; gain := Some g;
                                      rank := None; total_signers := None |}
                              else d
                          | None => d
                          end) = status d).
  { destruct (r_gain r) as [g|]; [destruct (truthy g)|]; reflexivity. }
  destruct a as [rec|]; [|now intros [= <-]].
  destruct (truthy rec); [|now intros [= <-]].
  destruct rec; try discriminate.
  destruct (truthy (Proxies.dict_get _ "gain")); [|now intros [= <-]].
  destruct (truthy (Proxies.dict_get _ "rank")); now intros [= <-].
Qed.

(** The first entry a sign-in with a cookie hands to the history. *)
Lemma sign_first_entry (L : pylib) (E : sign_env) (p : plugin) :
  _cookie p <> "" ->
  let result := run_api_sign E in
  let first := head (appended (sign L E p).1.2) in
  if r_success result then
    match with_reward
            (entry (now_str E)
               (if r_already_signed result then STATUS_ALREADY else STATUS_SUCCESS)
               (Some (r_message result)))
            result (attendance E) with
    | inl d => first = Some d
    | inr e => first = Some (entry (handler_now_str E) (status_error e) None)
    end
  else
    first = Some (set_status
                    (entry (now_str E) STATUS_FAILED (Some (r_message result)))
                    (reconciled (reconcile L E (attendance E)) result).2).
Proof.
  intros Hcookie. cbv zeta. run_flow.
  destruct p as [cookie ntf hd mr rc sr sch st]. simpl in Hcookie.
  assert (Hc : String.eqb cookie "" = false) by (now apply String.eqb_neq).
  destruct sch as [sc|], sr as [id|]; simpl; rewrite Hc.
  all: flow_cases.
  all: reflexivity.
Qed.

(** C3.  With a cookie configured, the entry a sign-in writes first is:
    after a success verdict of the classifier, the classifier's own status
    (or the error entry, when reading the reward raises), the reconciliation
    not being consulted; after a failure verdict, the confirmed-by-record
    status, with the verdict set to success and already-signed, exactly when
    the attendance record has a time stamp that parses and whose own date
    fields, as written, equal the date of the host's local clock; else the
    time-window status, with the verdict set to success and signed, exactly
    when the current UTC time and the time stamp, its offset dropped, differ
    by less than half an hour; and else the failure status, the verdict
    unchanged.  This is not the comparison of the claim.  On a host in
    UTC+8 at 07:00 of 2024-05-01, which is 23:00 UTC of 2024-04-30, a record
    stamped [2024-04-30T16:10:00.000Z] lies on today's date in local time
    and in UTC, and the failure stays.  And a failure that the record
    confirms is handled as a failure all the same: with retries left, the
    retry job is added, the failure notification goes out, the retry count
    goes up and no [last_sign_date] is written. *)
Theorem reconciliation_only_upgrades :
  (forall (L : pylib) (E : sign_env) (p : plugin),
     _cookie p <> "" ->
     exists d, head (appended (sign L E p).1.2) = Some d /\
       if r_success (run_api_sign E) then
         status d = (if r_already_signed (run_api_sign E)
                     then "已签到" else "签到成功")
         \/ exists e, status d = "签到出错: " +:+ e
       else
         let verdict :=
           (reconciled (reconcile L E (attendance E)) (run_api_sign E)).1 in
         (status d = "已签到（记录确认）" /\
          r_success verdict = true /\ r_already_signed verdict = true /\
          r_message verdict = JStr "今日已签到（记录确认）" /\
          exists dt, record_timestamp L (attendance E) = Some dt /\
                     date_of dt = today E / US_PER_DAY)
         \/
         (status d = "签到成功（兜底时间验证）" /\
          r_success verdict = true /\ r_signed verdict = true /\
          r_message verdict = JStr "签到成功（兜底时间验证）" /\
          exists dt, record_timestamp L (attendance E) = Some dt /\
                     date_of dt <> today E / US_PER_DAY /\
                     Z.abs (utcnow E - wall (replace_tzinfo_none dt))
                     < 1800 * 1000000)
         \/
         (status d = "签到失败" /\
          verdict = run_api_sign E /\
          forall dt, record_timestamp L (attendance E) = Some dt ->
                     date_of dt <> today E / US_PER_DAY /\
                     1800 * 1000000
                     <= Z.abs (utcnow E - wall (replace_tzinfo_none dt)))) /\
  (exists dt,
     record_timestamp demo_lib (Some record_utc) = Some dt /\
     date_of (astimezone demo_lib SHANGHAI dt)
     = today (early_run (Some record_utc)) / US_PER_DAY /\
     date_of (astimezone demo_lib 0 dt)
     = utcnow (early_run (Some record_utc)) / US_PER_DAY /\
     (sign demo_lib (early_run (Some record_utc)) (demo_plugin 0)).1.2
     = [SaveHistory (entry "2024-05-01 07:00:00" "签到失败"
                       (Some (JStr "Cookie已失效，请更新")));
        Notify "【NodeSeek论坛签到失败】" (JStr "Cookie已失效，请更新")]) /\
  (let run := sign demo_lib
                (failing_run 1714521600 (Some record_local) posts_fine)
                (demo_plugin 3) in
   run.1.2
   = [SaveHistory (entry "2024-05-01 08:00:00" "已签到（记录确认）"
                     (Some (JStr "Cookie已失效，请更新")));
      AddJob "nodeseek_retry_1714521600";
      Notify "【NodeSeek论坛签到失败】" (JStr "今日已签到（记录确认）")] /\
   map job_id (pending run.1.1) = ["nodeseek_retry_1714521600"] /\
   _retry_count run.1.1 = 1 /\
   last_sign_date (data run.1.1) = None).
Proof.
  split; [|split].
  - intros L E p Hcookie.
    pose proof (sign_first_entry L E p Hcookie) as Hfirst.
    cbv zeta in Hfirst.
    destruct (r_success (run_api_sign E)).
    + destruct (with_reward _ _ _) as [d|e] eqn:Hw.
      * exists d. split; [exact Hfirst|]. left.
        now rewrite (with_reward_status _ _ _ _ Hw).
      * eexists. split; [exact Hfirst|]. right. now exists e.
    + eexists. split; [exact Hfirst|].
      pose proof (reconcile_spec L E (attendance E)) as Hrec.
      change (1800 * 1000000) with HALF_HOUR.
      destruct (reconcile L E (attendance E)); simpl.
      * right. right. auto.
      * left. auto.
      * right. left. auto.
  - eexists. repeat split; vm_compute; reflexivity.
  - vm_compute. repeat split; reflexivity.
Qed.

(** A failed call, and a record of today's date: confirmed by the record. *)
Lemma reconciliation_only_upgrades_demo :
  _cookie (demo_plugin 0) <> "" /\
  exists d,
    head (appended (sign demo_lib
                      (failing_run 1714521600 (Some record_local) posts_fine)
                      (demo_plugin 0)).1.2) = Some d /\
    status d = STATUS_CONFIRMED.
Proof.
  assert (Hc : _cookie (demo_plugin 0) <> "") by discriminate.
  split; [exact Hc|].
  destruct (proj1 reconciliation_only_upgrades demo_lib
              (failing_run 1714521600 (Some record_local) posts_fine)
              (demo_plugin 0) Hc) as (d & Hd & Hcase).
  exists d. split; [exact Hd|].
  vm_compute in Hd. injection Hd as <-. reflexivity.
Defined.

(** A stamp written with the offset of Shanghai, eight hours and a quarter
    old: the offset is dropped, what is left lies a quarter of an hour from
    the UTC clock, and the time window takes it. *)
Example old_record_with_offset_passes_the_window :
  reconcile demo_lib
    (failing_run 1714521600
       (Some (JObj [("created_at", JStr "2024-04-30T23:45:00+08:00")]))
       posts_fine)
    (Some (JObj [("created_at", JStr "2024-04-30T23:45:00+08:00")]))
  = TimeWindow.
Proof. vm_compute. reflexivity. Qed.

(** The same moment written in UTC has yesterday's date in its fields, and
    lies eight hours back: the failure stays. *)
Example record_in_utc_is_not_confirmed :
  reconcile demo_lib (failing_run 1714521600 (Some record_utc) posts_fine)
    (Some record_utc) = Unchanged.
Proof. vm_compute. reflexivity. Qed.

(** ** One entry per invocation *)

(** A sign-in writes one entry, or two when the main flow raises after it
    has written its own. *)
Lemma sign_appends_once_or_twice (L : pylib) (E : sign_env) (p : plugin) :
  length (appended (sign L E p).1.2) = 1%nat \/
  length (appended (sign L E p).1.2) = 2%nat.
Proof.
  run_flow. destruct p as [cookie ntf hd mr rc sr sch st].
  destruct sch as [sc|], sr as [id|]; simpl.
  all: flow_cases.
  all: auto.
Qed.

(** C4.  A failed sign-in with notifications on and retries off, in which
    the failure notification raises: the main flow has already written the
    failure entry, the handler writes the error entry, and the history
    holds two entries for the one invocation.  When the notification of the
    handler raises as well, the exception leaves [sign]. *)
Theorem notification_failure_doubles_history :
  appended (sign demo_lib (failing_run 1714521600 (Some (JObj [])) first_post_fails)
              (demo_plugin 0)).1.2
  = [entry "2024-05-01 08:00:00" STATUS_FAILED (Some (JStr COOKIE_INVALID));
     entry "2024-05-01 08:00:02" (status_error "connection refused") None] /\
  sign_history
    (data (sign demo_lib (failing_run 1714521600 (Some (JObj [])) first_post_fails)
             (demo_plugin 0)).1.1)
  = Some [entry "2024-05-01 08:00:00" STATUS_FAILED (Some (JStr COOKIE_INVALID));
          entry "2024-05-01 08:00:02" (status_error "connection refused") None] /\
  (sign demo_lib (failing_run 1714521600 (Some (JObj [])) posts_fail)
     (demo_plugin 0)).2
  = inr "connection refused".
Proof. vm_compute. repeat split; reflexivity. Qed.

(** Without the failing notification the same run writes one entry. *)
Example quiet_failure_writes_once :
  appended (sign demo_lib (failing_run 1714521600 (Some (JObj [])) posts_fine)
              (demo_plugin 0)).1.2
  = [entry "2024-05-01 08:00:00" STATUS_FAILED (Some (JStr COOKIE_INVALID))].
Proof. vm_compute. reflexivity. Qed.

End SignFacts.
